(** * Expense-Tracker: the storage layer ([database.py]) and its specification

    A shallow embedding of the storage layer of the expense tracker: the
    three SQLite tables ([users], [expenses], [budgets]) are lists of
    rows in row-id order, every function of [database.py] is a function
    in a state-and-exception monad over the database, and each SQL
    statement is the list operation it denotes.

    Conventions.
    - A Python [str] is a [string] whose characters are the code points
      below 256; SQLite compares TEXT bytewise on its UTF-8 encoding,
      which orders such strings as [String.compare] does.
    - A Python [int] is a [Z]. The functions are the statements they run
      with the parameters bound; [execute] is the binding, which raises
      [OverflowError] for an [int] that is no INTEGER of SQLite.
    - The REAL column type is a parameter [real] of the development with
      its addition, its zero, its order and its Python truthiness. SUM
      adds the amounts in the order in which the statement visits the
      rows, which is that of the index SQLite (3.40) runs the statement
      through: [idx_expenses_user_date] under a date bound,
      [idx_expenses_user_category] for the grouping without one.
    - A function that raises leaves the database file as it was; the
      connection it did not close is gone when the next call is made.
    - [secrets.token_hex] and [pd.Timestamp.utcnow] are inputs of
      [create_user]: the salt and the timestamp it draws.

    Of [app.py] the development has the date helpers ([month_str],
    [to_date_str], over a model of [date.strftime] whose padding of years
    below 1000 is a parameter), the sign-up and login forms as calls on
    the database, and the category fields of the add and edit forms. *)

From Stdlib Require Import ZArith List String Ascii Bool Lia PrimFloat.
From Stdlib Require Import Permutation Sorted.
Import ListNotations.

Local Open Scope string_scope.
Local Open Scope list_scope.
Local Open Scope Z_scope.

(** ** Python strings *)

Module Py.

(** [str.isspace] on one character, for the code points below 256. *)
Definition isspace (c : ascii) : bool :=
  let n := Z.of_N (N_of_ascii c) in
  ((9 <=? n) && (n <=? 13)) || ((28 <=? n) && (n <=? 32))
  || (n =? 133) || (n =? 160).

Fixpoint lstrip (s : string) : string :=
  match s with
  | EmptyString => EmptyString
  | String c s' => if isspace c then lstrip s' else s
  end.

Fixpoint rstrip (s : string) : string :=
  match s with
  | EmptyString => EmptyString
  | String c s' =>
      match rstrip s' with
      | EmptyString => if isspace c then EmptyString else String c EmptyString
      | r => String c r
      end
  end.

(** [s.strip()] *)
Definition strip (s : string) : string := rstrip (lstrip s).

(** Truth value of a [str]: [if s:] *)
Definition truthy (s : string) : bool :=
  match s with EmptyString => false | _ => true end.

(** Truth value of an [Optional[str]] *)
Definition truthy_opt (o : option string) : bool :=
  match o with Some s => truthy s | None => false end.

(** Truth value of an [Optional[List[str]]] *)
Definition truthy_list (o : option (list string)) : bool :=
  match o with Some (_ :: _) => true | _ => false end.

(** [s.encode("utf-8")], as a list of byte values. *)
Fixpoint encode_utf8 (s : string) : list Z :=
  match s with
  | EmptyString => []
  | String c s' =>
      let n := Z.of_N (N_of_ascii c) in
      if n <? 128 then n :: encode_utf8 s'
      else Z.lor 192 (Z.shiftr n 6) :: Z.lor 128 (Z.land n 63) :: encode_utf8 s'
  end.

End Py.

(** ** SHA-256 ([hashlib.sha256], FIPS 180-4) *)

Module SHA256.

Definition w32 (x : Z) : Z := Z.land x 0xffffffff.
Definition add32 (x y : Z) : Z := w32 (x + y).
Definition rotr (n x : Z) : Z := Z.lor (Z.shiftr x n) (w32 (Z.shiftl x (32 - n))).

Definition Ch (x y z : Z) : Z := Z.lxor (Z.land x y) (Z.land (Z.lxor x 0xffffffff) z).
Definition Maj (x y z : Z) : Z :=
  Z.lxor (Z.lxor (Z.land x y) (Z.land x z)) (Z.land y z).
Definition Sigma0 x := Z.lxor (Z.lxor (rotr 2 x) (rotr 13 x)) (rotr 22 x).
Definition Sigma1 x := Z.lxor (Z.lxor (rotr 6 x) (rotr 11 x)) (rotr 25 x).
Definition sigma0 x := Z.lxor (Z.lxor (rotr 7 x) (rotr 18 x)) (Z.shiftr x 3).
Definition sigma1 x := Z.lxor (Z.lxor (rotr 17 x) (rotr 19 x)) (Z.shiftr x 10).

(** The round constants, eight to a row. *)
Definition K : list Z :=
  List.concat
    [ [ 0x428a2f98; 0x71374491; 0xb5c0fbcf; 0xe9b5dba5;
        0x3956c25b; 0x59f111f1; 0x923f82a4; 0xab1c5ed5 ];
      [ 0xd807aa98; 0x12835b01; 0x243185be; 0x550c7dc3;
        0x72be5d74; 0x80deb1fe; 0x9bdc06a7; 0xc19bf174 ];
      [ 0xe49b69c1; 0xefbe4786; 0x0fc19dc6; 0x240ca1cc;
        0x2de92c6f; 0x4a7484aa; 0x5cb0a9dc; 0x76f988da ];
      [ 0x983e5152; 0xa831c66d; 0xb00327c8; 0xbf597fc7;
        0xc6e00bf3; 0xd5a79147; 0x06ca6351; 0x14292967 ];
      [ 0x27b70a85; 0x2e1b2138; 0x4d2c6dfc; 0x53380d13;
        0x650a7354; 0x766a0abb; 0x81c2c92e; 0x92722c85 ];
      [ 0xa2bfe8a1; 0xa81a664b; 0xc24b8b70; 0xc76c51a3;
        0xd192e819; 0xd6990624; 0xf40e3585; 0x106aa070 ];
      [ 0x19a4c116; 0x1e376c08; 0x2748774c; 0x34b0bcb5;
        0x391c0cb3; 0x4ed8aa4a; 0x5b9cca4f; 0x682e6ff3 ];
      [ 0x748f82ee; 0x78a5636f; 0x84c87814; 0x8cc70208;
        0x90befffa; 0xa4506ceb; 0xbef9a3f7; 0xc67178f2 ] ].

Definition H0 : list Z :=
  [ 0x6a09e667; 0xbb67ae85; 0x3c6ef372; 0xa54ff53a;
    0x510e527f; 0x9b05688c; 0x1f83d9ab; 0x5be0cd19 ].

(** Big-endian bytes of [x], [n] of them. *)
Fixpoint be_bytes (n : nat) (x : Z) : list Z :=
  match n with
  | O => []
  | S n' => Z.land (Z.shiftr x (8 * Z.of_nat n')) 255 :: be_bytes n' x
  end.

(** The message, a 1 bit, zeros up to 56 modulo 64, the bit length. *)
Definition pad (msg : list Z) : list Z :=
  let len := Z.of_nat (List.length msg) in
  msg ++ [128] ++ repeat 0 (Z.to_nat ((55 - len) mod 64)) ++ be_bytes 8 (8 * len).

(** Big-endian 32-bit words of a byte list. *)
Fixpoint words (fuel : nat) (bs : list Z) : list Z :=
  match fuel, bs with
  | S fuel', b0 :: b1 :: b2 :: b3 :: bs' =>
      (Z.shiftl b0 24 + Z.shiftl b1 16 + Z.shiftl b2 8 + b3) :: words fuel' bs'
  | _, _ => []
  end.

(** The message schedule, most recent word first. *)
Fixpoint extend (n : nat) (wrev : list Z) : list Z :=
  match n with
  | O => wrev
  | S n' =>
      let w := add32 (add32 (sigma1 (nth 1 wrev 0)) (nth 6 wrev 0))
                     (add32 (sigma0 (nth 14 wrev 0)) (nth 15 wrev 0)) in
      extend n' (w :: wrev)
  end.

Definition schedule (block : list Z) : list Z := rev (extend 48 (rev block)).

Definition round (st : list Z) (kw : Z * Z) : list Z :=
  match st with
  | [a; b; c; d; e; f; g; h] =>
      let t1 := add32 (add32 (add32 h (Sigma1 e)) (add32 (Ch e f g) (fst kw))) (snd kw) in
      let t2 := add32 (Sigma0 a) (Maj a b c) in
      [add32 t1 t2; a; b; c; add32 d t1; e; f; g]
  | _ => st
  end.

Definition compress (h : list Z) (block : list Z) : list Z :=
  map (fun p => add32 (fst p) (snd p))
      (combine h (fold_left round (combine K (schedule block)) h)).

Fixpoint blocks (fuel : nat) (h : list Z) (ws : list Z) : list Z :=
  match fuel, ws with
  | S fuel', _ :: _ => blocks fuel' (compress h (firstn 16 ws)) (skipn 16 ws)
  | _, _ => h
  end.

Definition digest (msg : list Z) : list Z :=
  let bs := pad msg in
  let ws := words (List.length bs) bs in
  blocks (List.length ws) H0 ws.

Definition hex_digit (n : Z) : ascii :=
  ascii_of_N (Z.to_N (if n <? 10 then 48 + n else 87 + n)).

Fixpoint hex (n : nat) (x : Z) : string :=
  match n with
  | O => EmptyString
  | S n' => String (hex_digit (Z.land (Z.shiftr x (4 * Z.of_nat n')) 15)) (hex n' x)
  end.

(** [h.hexdigest()] after [h.update(msg)] *)
Definition hexdigest (msg : list Z) : string :=
  fold_right (fun w s => String.append (hex 8 w) s) EmptyString (digest msg).

End SHA256.

(** ** The state of the digest *)

(** A 32-bit word. *)
Definition word32 (x : Z) : Prop := 0 <= x < 4294967296.

(** A hash state: eight 32-bit words. *)
Definition state_ok (h : list Z) : Prop :=
  List.length h = 8%nat /\ Forall word32 h.

(** ** Dates ([datetime.date] and its [strftime]) *)

Module Datetime.

Record date : Type := mk_date { year : Z; month : Z; day : Z }.

(** The order of dates: that of the triples year, month, day. *)
Definition compare (a b : date) : comparison :=
  match year a ?= year b with
  | Eq => match month a ?= month b with
          | Eq => day a ?= day b
          | c => c
          end
  | c => c
  end.

Definition digit (n : Z) : ascii := ascii_of_N (Z.to_N (48 + n)).

(** [n] in decimal on [width] digits, zeros in front. *)
Fixpoint fixed (width : nat) (n : Z) : string :=
  match width with
  | O => EmptyString
  | S w => String.append (fixed w (n / 10)) (String (digit (n mod 10)) EmptyString)
  end.

(** [%Y]: four digits from the year 1000 on; before, four digits where the
    C library pads the year ([pad_year]) and the plain decimal where it
    does not. *)
Definition format_Y (pad_year : bool) (y : Z) : string :=
  if pad_year || (1000 <=? y) then fixed 4 y
  else if 100 <=? y then fixed 3 y
  else if 10 <=? y then fixed 2 y
  else fixed 1 y.

(** [d.strftime("%Y-%m")] *)
Definition strftime_Y_m (pad_year : bool) (d : date) : string :=
  String.append (format_Y pad_year (year d))
                (String.append "-" (fixed 2 (month d))).

(** [d.strftime("%Y-%m-%d")] *)
Definition strftime_Y_m_d (pad_year : bool) (d : date) : string :=
  String.append (format_Y pad_year (year d))
    (String.append "-"
       (String.append (fixed 2 (month d)) (String.append "-" (fixed 2 (day d))))).

End Datetime.

(** ** The helpers of [app.py] *)

Definition month_str (pad_year : bool) (d : Datetime.date) : string :=
  Datetime.strftime_Y_m pad_year d.

Definition to_date_str (pad_year : bool) (d : Datetime.date) : string :=
  Datetime.strftime_Y_m_d pad_year d.


(** The categories the forms offer. *)
Definition DEFAULT_CATEGORIES : list string :=
  [ "Food"; "Travel"; "Shopping"; "Bills"; "Entertainment"; "Health";
    "Groceries"; "Education"; "Rent"; "Utilities"; "Other" ].

(** The options of the category select box:
    [DEFAULT_CATEGORIES + ["Custom..."]] *)
Definition category_options : list string := DEFAULT_CATEGORIES ++ ["Custom..."].

(** [text.strip() or "Other"] *)
Definition custom_category (text : string) : string :=
  if Py.truthy (Py.strip text) then Py.strip text else "Other".

(** The category a form hands on: the option selected, or what was typed
    in the custom field when the option is "Custom...". *)
Definition form_category (selected text : string) : string :=
  if String.eqb selected "Custom..." then custom_category text else selected.

(** [l.index(x)]: the first position of [x], [None] for the [ValueError]. *)
Fixpoint index (x : string) (l : list string) : option nat :=
  match l with
  | [] => None
  | y :: l' => if String.eqb y x then Some O else option_map S (index x l')
  end.

(** The option the edit form preselects for the category of a row. *)
Definition default_index (category : string) : nat :=
  let found :=
    if existsb (String.eqb category) DEFAULT_CATEGORIES
    then index category category_options
    else index "Custom..." category_options in
  match found with
  | Some i => i
  | None => (List.length category_options - 1)%nat
  end.


(** ** The database *)

Section Storage.

(** The REAL column type: binary64 in the running system. *)
Variable real : Type.
Variable real_zero : real.
Variable real_add : real -> real -> real.
(** [real_leb a b] is [a <= b]. *)
Variable real_leb : real -> real -> bool.
(** Python's [bool(x)] on a float. *)
Variable real_truthy : real -> bool.

(** Rows of [users], [expenses] and [budgets], one field per column. *)
Record user_row : Type := mk_user {
  u_id : Z;
  u_username : string;
  u_password_hash : string;
  u_salt : string;
  u_created_at : string }.

Record expense_row : Type := mk_expense {
  e_id : Z;
  e_user_id : Z;
  e_date : string;
  e_category : string;
  e_amount : real;
  e_note : string }.

Record budget_row : Type := mk_budget {
  b_user_id : Z;
  b_month : string;
  b_amount : real }.

(** The database file: the three tables in row-id order and, for the two
    AUTOINCREMENT tables, the largest row id ever handed out
    ([sqlite_sequence]). *)
Record db : Type := mk_db {
  users : list user_row;
  users_seq : Z;
  expenses : list expense_row;
  expenses_seq : Z;
  budgets : list budget_row }.

(** The database [init_db] creates when there is none. *)
Definition empty_db : db := mk_db [] 0 [] 0 [].

(** [CREATE TABLE IF NOT EXISTS], [CREATE INDEX IF NOT EXISTS]: an existing
    database is left as it is. *)
Definition init_db (file : option db) : db :=
  match file with
  | Some d => d
  | None => empty_db
  end.

(** *** Calls: state and exceptions *)

Inductive exn : Type :=
| IntegrityError (constraint : string)
| OverflowError.

(** A call returns a value and the database it committed, or raises and
    commits nothing. *)
Inductive outcome (A : Type) : Type :=
| Ok (a : A) (d : db)
| Raise (e : exn).
Arguments Ok {A} a d.
Arguments Raise {A} e.

Definition M (A : Type) : Type := db -> outcome A.

Definition ret {A} (a : A) : M A := fun d => Ok a d.

Definition bind {A B} (m : M A) (k : A -> M B) : M B :=
  fun d => match m d with
           | Ok a d' => k a d'
           | Raise e => Raise e
           end.

Definition raise {A} (e : exn) : M A := fun _ => Raise e.

Notation "x <- m ;; k" := (bind m (fun x => k))
  (at level 61, m at next level, right associativity).

(** The database a call leaves behind: what it committed, and the database
    it found when it raised. A function that raises does not reach its
    [conn.close()]; the file is as it was, and the connection keeps its
    write lock until Python collects it, so that this is the database the
    next call finds once the connection is gone. *)
Definition committed {A} (m : M A) (d : db) : db :=
  match m d with
  | Ok _ d' => d'
  | Raise _ => d
  end.

(** *** Parameters *)

(** An INTEGER of SQLite: 64 bits, signed. *)
Definition INTEGER (n : Z) : bool := (- 2 ^ 63 <=? n) && (n <? 2 ^ 63).

(** [cur.execute(sql, parameters)] with the [int]s among the parameters:
    [sqlite3] binds each as an INTEGER and raises [OverflowError] ("Python
    int too large to convert to SQLite INTEGER") for one that is none,
    before the statement runs. The functions below give the statement with
    its parameters bound. *)
Definition execute {A} (parameters : list Z) (statement : M A) : M A :=
  fun d =>
    if forallb INTEGER parameters then statement d else Raise OverflowError.

(** *** SQL building blocks *)

(** Row id of an insert into an AUTOINCREMENT table: one more than the
    largest row id the table holds or ever held. *)
Definition max_rowid (ids : list Z) : Z := fold_right Z.max 0 ids.

Definition next_rowid (ids : list Z) (seq : Z) : Z :=
  Z.max (max_rowid ids) seq + 1.

(** [CHECK(amount >= 0)] *)
Definition check_amount (amount : real) : bool := real_leb real_zero amount.

(** [SUM(x)] over the values in the order the statement visits the rows:
    each is added to the sum so far, which starts at zero; NULL over no
    row. *)
Definition sql_sum (xs : list real) : option real :=
  match xs with
  | [] => None
  | _ :: _ => Some (fold_left real_add xs real_zero)
  end.

(** [COALESCE(x, y)] *)
Definition coalesce (x : option real) (y : real) : real :=
  match x with
  | Some v => v
  | None => y
  end.

(** The conditions the functions put after [WHERE], joined by [AND]. *)
Inductive cond : Type :=
| UserIdEq (user_id : Z)            (* user_id = ? *)
| DateGe (start_date : string)      (* date >= ? *)
| DateLe (end_date : string)        (* date <= ? *)
| CategoryIn (categories : list string). (* category IN (?,...) *)

Definition holds (c : cond) (e : expense_row) : bool :=
  match c with
  | UserIdEq u => e_user_id e =? u
  | DateGe d => String.leb d (e_date e)
  | DateLe d => String.leb (e_date e) d
  | CategoryIn cs => existsb (String.eqb (e_category e)) cs
  end.

Definition where_ (query : list cond) (rows : list expense_row) : list expense_row :=
  filter (fun e => forallb (fun c => holds c e) query) rows.

(** [ORDER BY date ASC, id ASC] *)
Definition date_id_leb (a b : expense_row) : bool :=
  match String.compare (e_date a) (e_date b) with
  | Lt => true
  | Eq => e_id a <=? e_id b
  | Gt => false
  end.

Fixpoint insert_row (r : expense_row) (l : list expense_row) : list expense_row :=
  match l with
  | [] => [r]
  | x :: l' => if date_id_leb r x then r :: l else x :: insert_row r l'
  end.

Definition order_by_date_id (rows : list expense_row) : list expense_row :=
  fold_right insert_row [] rows.

(** Sorting by insertion: an element goes before the first one it does not
    exceed, so that elements of one rank stay in the order they came. *)
Fixpoint insert_by {A} (leb : A -> A -> bool) (x : A) (l : list A) : list A :=
  match l with
  | [] => [x]
  | y :: l' => if leb x y then x :: l else y :: insert_by leb x l'
  end.

Definition sort_by {A} (leb : A -> A -> bool) (l : list A) : list A :=
  fold_right (insert_by leb) [] l.

(** The rows in rowid order. *)
Definition id_leb (a b : expense_row) : bool := e_id a <=? e_id b.

Definition order_by_id (rows : list expense_row) : list expense_row :=
  sort_by id_leb rows.

(** The rows of one user as [idx_expenses_user_date], the index on
    [(user_id, date)], gives them: by date, then by rowid. *)
Definition idx_expenses_user_date (rows : list expense_row) : list expense_row :=
  order_by_date_id rows.

(** The categories of the rows, each once, in ascending order. *)
Definition categories (rows : list expense_row) : list string :=
  sort_by String.leb (nodup string_dec (map e_category rows)).

(** [GROUP BY category]: a group for each of the categories [cats], with
    its rows in the order they are [scanned]. *)
Definition group_by_category (cats : list string) (scanned : list expense_row)
  : list (string * list expense_row) :=
  map (fun c => (c, filter (fun e => String.eqb (e_category e) c) scanned)) cats.

(** [ORDER BY total DESC LIMIT 1]: the first of the groups of largest
    total. *)
Fixpoint largest_total (best : string * real) (l : list (string * real))
  : string * real :=
  match l with
  | [] => best
  | g :: l' => largest_total (if real_leb (snd g) (snd best) then best else g) l'
  end.

Definition order_by_total_desc_limit_1 (l : list (string * real))
  : option (string * real) :=
  match l with
  | [] => None
  | g :: l' => Some (largest_total g l')
  end.
(** *** User helpers *)

(** SHA-256 of the salt followed by the password, in hexadecimal. *)
Definition _hash_password (password salt : string) : string :=
  SHA256.hexdigest (Py.encode_utf8 (String.append salt password)).

(** [SELECT ... FROM users WHERE username = ?], then [fetchone()] *)
Definition select_user_by_username (username : string) : M (option user_row) :=
  fun d => Ok (find (fun u => String.eqb (u_username u) username) (users d)) d.

(** [INSERT INTO users (username, password_hash, salt, created_at)], then
    [commit()] and [lastrowid]; [username] is UNIQUE. *)
Definition insert_user (username password_hash salt created_at : string) : M Z :=
  fun d =>
    if existsb (fun u => String.eqb (u_username u) username) (users d)
    then Raise (IntegrityError "UNIQUE constraint failed: users.username")
    else
      let id := next_rowid (map u_id (users d)) (users_seq d) in
      Ok id (mk_db (users d ++ [mk_user id username password_hash salt created_at])
                   id (expenses d) (expenses_seq d) (budgets d)).

(** [salt] is what [secrets.token_hex(16)] returns in the call and
    [created_at] what [pd.Timestamp.utcnow().isoformat()] returns. *)
Definition create_user (username password : string) (salt created_at : string)
  : M (option Z) :=
  let username := Py.strip username in
  if negb (Py.truthy username) || negb (Py.truthy password) then ret None
  else
    row <- select_user_by_username username ;;
    match row with
    | Some _ => ret None
    | None =>
        let password_hash := _hash_password password salt in
        user_id <- insert_user username password_hash salt created_at ;;
        ret (Some user_id)
    end.

Definition authenticate_user (username password : string) : M (option Z) :=
  row <- select_user_by_username (Py.strip username) ;;
  match row with
  | None => ret None
  | Some u =>
      if String.eqb (_hash_password password (u_salt u)) (u_password_hash u)
      then ret (Some (u_id u))
      else ret None
  end.

(** The row as [(id, username, created_at)]. *)
Definition get_user_by_id (user_id : Z) : M (option (Z * string * string)) :=
  fun d =>
    Ok (option_map (fun u => (u_id u, u_username u, u_created_at u))
                   (find (fun u => u_id u =? user_id) (users d))) d.

(** *** Expenses *)

(** [INSERT INTO expenses (user_id, date, category, amount, note)], then
    [commit()] and [lastrowid]; [amount] is CHECKed. *)
Definition insert_expense (user_id : Z) (date category : string) (amount : real)
    (note : string) : M Z :=
  fun d =>
    if check_amount amount then
      let id := next_rowid (map e_id (expenses d)) (expenses_seq d) in
      Ok id (mk_db (users d) (users_seq d)
                   (expenses d ++ [mk_expense id user_id date category amount note])
                   id (budgets d))
    else Raise (IntegrityError "CHECK constraint failed: amount >= 0").

Definition add_expense (user_id : Z) (date category : string) (amount : real)
    (note : string) : M Z :=
  insert_expense user_id date category amount (if Py.truthy note then note else "").

(** A row of the data frame: the columns [ID, Date, Category, Amount, Note]. *)
Record df_row : Type := mk_df_row {
  ID : Z;
  Date : string;
  Category : string;
  Amount : real;
  Note : string }.

Definition select_columns (e : expense_row) : df_row :=
  mk_df_row (e_id e) (e_date e) (e_category e) (e_amount e) (e_note e).

(** [pd.read_sql_query(query + " ORDER BY date ASC, id ASC", conn)] *)
Definition read_sql_query (query : list cond) : M (list df_row) :=
  fun d => Ok (map select_columns (order_by_date_id (where_ query (expenses d)))) d.

Definition get_expenses_df (user_id : Z) (start_date end_date : option string)
    (categories : option (list string)) : M (list df_row) :=
  let query := [UserIdEq user_id] in
  let query :=
    match start_date with
    | Some d => if Py.truthy d then query ++ [DateGe d] else query
    | None => query
    end in
  let query :=
    match end_date with
    | Some d => if Py.truthy d then query ++ [DateLe d] else query
    | None => query
    end in
  let query :=
    match categories with
    | Some (c :: cs) => query ++ [CategoryIn (c :: cs)]
    | _ => query
    end in
  read_sql_query query.

(** [WHERE user_id = ? AND id = ?] *)
Definition owned_by (user_id expense_id : Z) (e : expense_row) : bool :=
  (e_user_id e =? user_id) && (e_id e =? expense_id).

(** [DELETE FROM expenses WHERE user_id = ? AND id = ?], the parameters
    bound. *)
Definition delete_expense (user_id expense_id : Z) : M unit :=
  fun d =>
    Ok tt (mk_db (users d) (users_seq d)
                 (filter (fun e => negb (owned_by user_id expense_id e)) (expenses d))
                 (expenses_seq d) (budgets d)).

(** [UPDATE expenses SET date=?, category=?, amount=?, note=?
    WHERE user_id = ? AND id = ?], the parameters bound; the CHECK is made
    on the rows updated. *)
Definition update_expense (user_id expense_id : Z) (date category : string)
    (amount : real) (note : string) : M unit :=
  fun d =>
    if existsb (owned_by user_id expense_id) (expenses d) && negb (check_amount amount)
    then Raise (IntegrityError "CHECK constraint failed: amount >= 0")
    else
      Ok tt (mk_db (users d) (users_seq d)
                   (map (fun e => if owned_by user_id expense_id e
                                  then mk_expense (e_id e) (e_user_id e)
                                                  date category amount note
                                  else e)
                        (expenses d))
                   (expenses_seq d) (budgets d)).

(** *** Budgets *)

(** [PRIMARY KEY(user_id, month)] *)
Definition budget_key (user_id : Z) (month : string) (b : budget_row) : bool :=
  (b_user_id b =? user_id) && String.eqb (b_month b) month.

(** [INSERT INTO budgets ... ON CONFLICT(user_id, month) DO UPDATE SET
    amount=excluded.amount] *)
Definition set_budget (user_id : Z) (month : string) (amount : real) : M unit :=
  fun d =>
    if check_amount amount then
      let budgets' :=
        if existsb (budget_key user_id month) (budgets d)
        then map (fun b => if budget_key user_id month b
                           then mk_budget (b_user_id b) (b_month b) amount
                           else b)
                 (budgets d)
        else budgets d ++ [mk_budget user_id month amount] in
      Ok tt (mk_db (users d) (users_seq d) (expenses d) (expenses_seq d) budgets')
    else Raise (IntegrityError "CHECK constraint failed: amount >= 0").

Definition get_budget (user_id : Z) (month : string) : M (option real) :=
  fun d =>
    Ok (option_map b_amount (find (budget_key user_id month) (budgets d))) d.

(** [SELECT COALESCE(SUM(amount), 0) FROM expenses WHERE user_id = ? AND
    date >= ? AND date <= ?], then [or 0.0]. SQLite runs the statement
    through [idx_expenses_user_date] (SEARCH expenses USING INDEX
    idx_expenses_user_date (user_id=? AND date>? AND date<?)), and so adds
    the amounts in the order of the dates. *)
Definition get_month_total (user_id : Z) (month : string) : M real :=
  fun d =>
    let start := String.append month "-01" in
    let end_ := String.append month "-31" in
    let rows :=
      idx_expenses_user_date
        (where_ [UserIdEq user_id; DateGe start; DateLe end_] (expenses d)) in
    let total := coalesce (sql_sum (map e_amount rows)) real_zero in
    Ok (if real_truthy total then total else real_zero) d.

(** The row [(category, total)] or [None]. With [user_id = ?] alone SQLite
    runs the statement through [idx_expenses_user_category]: the groups
    come in the order of the categories, each with its rows in rowid order.
    With a date bound it runs through [idx_expenses_user_date] and sorts
    the rows for GROUP BY, the categories descending as in ORDER BY total
    DESC: the groups come in the reverse order, each with its rows in the
    order of the dates. *)
Definition get_top_category (user_id : Z) (start_date end_date : option string)
  : M (option (string * real)) :=
  fun d =>
    let query := [UserIdEq user_id] in
    let query :=
      match start_date with
      | Some s => if Py.truthy s then query ++ [DateGe s] else query
      | None => query
      end in
    let query :=
      match end_date with
      | Some s => if Py.truthy s then query ++ [DateLe s] else query
      | None => query
      end in
    let rows := where_ query (expenses d) in
    let groups :=
      match query with
      | [_] => group_by_category (categories rows) (order_by_id rows)
      | _ => group_by_category (rev (categories rows)) (idx_expenses_user_date rows)
      end in
    let totals :=
      map (fun g => (fst g, coalesce (sql_sum (map e_amount (snd g))) real_zero))
          groups in
    Ok (order_by_total_desc_limit_1 totals) d.

(** *** Histories of calls *)

(** The calls that write. *)
Inductive call : Type :=
| CreateUser (username password salt created_at : string)
| AddExpense (user_id : Z) (date category : string) (amount : real) (note : string)
| DeleteExpense (user_id expense_id : Z)
| UpdateExpense (user_id expense_id : Z) (date category : string) (amount : real)
    (note : string)
| SetBudget (user_id : Z) (month : string) (amount : real).

Definition after (c : call) (d : db) : db :=
  match c with
  | CreateUser u p salt ts => committed (create_user u p salt ts) d
  | AddExpense u dt c a n => committed (add_expense u dt c a n) d
  | DeleteExpense u i => committed (delete_expense u i) d
  | UpdateExpense u i dt c a n => committed (update_expense u i dt c a n) d
  | SetBudget u m a => committed (set_budget u m a) d
  end.

Definition after_all (cs : list call) (d : db) : db :=
  fold_left (fun d c => after c d) cs d.

(** *** Constraints of the schema *)

(** [id INTEGER PRIMARY KEY] of [expenses] *)
Definition expenses_pk (d : db) : Prop := NoDup (map e_id (expenses d)).

(** [PRIMARY KEY(user_id, month)] of [budgets] *)
Definition budgets_pk (d : db) : Prop :=
  NoDup (map (fun b => (b_user_id b, b_month b)) (budgets d)).

(** [username TEXT NOT NULL UNIQUE] *)
Definition users_unique (d : db) : Prop := NoDup (map u_username (users d)).

(** *** Vocabulary of the properties *)

(** The identifier [id] was handed out, and to an expense of [owner]. *)
Definition issued_to (id owner : Z) (d : db) : Prop :=
  id <= expenses_seq d
  /\ forall e, In e (expenses d) -> e_id e = id -> e_user_id e = owner.

(** The conditions [get_expenses_df] appends after [user_id = ?]. *)
Definition filters (start_date end_date : option string)
    (categories : option (list string)) : list cond :=
  (match start_date with
   | Some s => if Py.truthy s then [DateGe s] else []
   | None => []
   end)
  ++ (match end_date with
      | Some s => if Py.truthy s then [DateLe s] else []
      | None => []
      end)
  ++ (match categories with
      | Some (c :: cs) => [CategoryIn (c :: cs)]
      | _ => []
      end).

(** Date ascending, then identifier ascending. *)
Definition date_then_id (r1 r2 : df_row) : Prop :=
  String.ltb (Date r1) (Date r2) = true
  \/ (Date r1 = Date r2 /\ ID r1 <= ID r2).

(** What the upsert makes of the table. *)
Definition upsert (user_id : Z) (month : string) (amount : real)
    (l : list budget_row) : list budget_row :=
  if existsb (budget_key user_id month) l
  then map (fun b => if budget_key user_id month b
                     then mk_budget (b_user_id b) (b_month b) amount
                     else b) l
  else l ++ [mk_budget user_id month amount].

(** The sum of a list of amounts, accumulated from zero. *)
Definition total_of (xs : list real) : real := fold_left real_add xs real_zero.

(** The user's expenses dated from [month-01] to [month-31]. *)
Definition in_month (user_id : Z) (month : string) (e : expense_row) : bool :=
  (e_user_id e =? user_id)
  && String.leb (String.append month "-01") (e_date e)
  && String.leb (e_date e) (String.append month "-31").

(** A date bound that restricts: one that is given and is not the empty
    string. *)
Definition supplied (bound : option string) : option string :=
  match bound with
  | Some s => if Py.truthy s then Some s else None
  | None => None
  end.

(** The order in which [get_top_category] adds the amounts of a category:
    that of the dates and then the identifiers under a date bound, that of
    the identifiers without one. *)
Definition visited (start_date end_date : option string)
    (rows : list expense_row) : list expense_row :=
  match supplied start_date, supplied end_date with
  | None, None => order_by_id rows
  | _, _ => order_by_date_id rows
  end.

(** The user's expenses in the date range, each bound taken as given. *)
Definition in_range (user_id : Z) (start_date end_date : option string)
    (e : expense_row) : bool :=
  (e_user_id e =? user_id)
  && match start_date with
     | Some s => String.leb s (e_date e)
     | None => true
     end
  && match end_date with
     | Some s => String.leb (e_date e) s
     | None => true
     end.

(** The total of a category over some rows. *)
Definition category_total (rows : list expense_row) (category : string) : real :=
  total_of (map e_amount (filter (fun e => String.eqb (e_category e) category) rows)).

(** [real_leb] compares any two of the values [l] and is transitive on
    them. *)
Definition linear_on (l : list real) : Prop :=
  (forall x y, In x l -> In y l -> real_leb x y = true \/ real_leb y x = true)
  /\ (forall x y z, In x l -> In y l -> In z l ->
        real_leb x y = true -> real_leb y z = true -> real_leb x z = true).

(** Every filter that is given restricts, an empty one too. *)
Definition passes_supplied (start_date end_date : option string)
    (categories : option (list string)) (e : expense_row) : Prop :=
  (forall s, start_date = Some s -> String.leb s (e_date e) = true)
  /\ (forall s, end_date = Some s -> String.leb (e_date e) s = true)
  /\ (forall cs, categories = Some cs -> In (e_category e) cs).

(** The claim on the query read to the letter: the rows returned are the
    user's expenses that pass every filter given, in date and identifier
    order. *)
Definition query_as_stated (d : db) (user_id : Z)
    (start_date end_date : option string) (categories : option (list string))
  : Prop :=
  exists rows,
    get_expenses_df user_id start_date end_date categories d = Ok rows d
    /\ (forall r, In r rows <->
         exists e, In e (expenses d) /\ r = select_columns e
           /\ e_user_id e = user_id
           /\ passes_supplied start_date end_date categories e)
    /\ StronglySorted date_then_id rows.

(** The claim on the top category read to the letter: each bound that is
    given restricts, an empty one too. *)
Definition top_category_as_stated (d : db) (user_id : Z)
    (start_date end_date : option string) : Prop :=
  let rows := filter (in_range user_id start_date end_date) (expenses d) in
  let scan := visited start_date end_date rows in
  exists result,
    get_top_category user_id start_date end_date d = Ok result d
    /\ (result = None <-> rows = [])
    /\ forall category total,
         result = Some (category, total) ->
         In category (map e_category rows)
         /\ total = category_total scan category
         /\ forall other, In other (map e_category rows) ->
                          real_leb (category_total scan other) total = true.

(** The claim on deleting and updating read to the letter: whatever the
    identifier, when no expense of the user carries it the calls return
    and the database is as it was. *)
Definition silent_noop_as_stated (d : db) (user_id expense_id : Z) : Prop :=
  (forall e, In e (expenses d) -> e_id e = expense_id -> e_user_id e <> user_id) ->
  execute [user_id; expense_id] (delete_expense user_id expense_id) d = Ok tt d
  /\ forall date category amount note,
      execute [user_id; expense_id]
              (update_expense user_id expense_id date category amount note) d
      = Ok tt d.

(** *** Vocabulary of the further properties *)

(** What a call returns, when it returns. *)
Definition returned {A} (m : M A) (d : db) : option A :=
  match m d with
  | Ok a _ => Some a
  | Raise _ => None
  end.

(** Python's [x or 0.0]. *)
Definition or_zero (x : real) : real := if real_truthy x then x else real_zero.

(** The keys of the schema: row ids of [expenses] and [users] distinct,
    positive and at most the table's sequence value, usernames distinct,
    one budget row for a user and month. *)
Definition keys_ok (d : db) : Prop :=
  NoDup (map e_id (expenses d))
  /\ (forall e, In e (expenses d) -> 1 <= e_id e <= expenses_seq d)
  /\ NoDup (map u_id (users d))
  /\ (forall u, In u (users d) -> 1 <= u_id u <= users_seq d)
  /\ NoDup (map u_username (users d))
  /\ NoDup (map (fun b => (b_user_id b, b_month b)) (budgets d)).

(** [CHECK(amount >= 0)] on every stored amount. *)
Definition amounts_ok (d : db) : Prop :=
  (forall e, In e (expenses d) -> check_amount (e_amount e) = true)
  /\ (forall b, In b (budgets d) -> check_amount (b_amount b) = true).

(** The user a writing call is made for; [create_user] is made for none. *)
Definition call_user (c : call) : option Z :=
  match c with
  | CreateUser _ _ _ _ => None
  | AddExpense u _ _ _ _ => Some u
  | DeleteExpense u _ => Some u
  | UpdateExpense u _ _ _ _ _ => Some u
  | SetBudget u _ _ => Some u
  end.

(** The call is a [set_budget] for the user and month. *)
Definition sets_budget (user_id : Z) (month : string) (c : call) : bool :=
  match c with
  | SetBudget u m _ => (u =? user_id) && String.eqb m month
  | _ => false
  end.

(** Stored usernames are trimmed and not empty. *)
Definition usernames_trimmed (d : db) : Prop :=
  forall u, In u (users d) ->
    u_username u <> "" /\ Py.strip (u_username u) = u_username u.

(** The identifier [id] was used and no expense carries it. *)
Definition retired (id : Z) (d : db) : Prop :=
  id <= expenses_seq d /\ forall e, In e (expenses d) -> e_id e <> id.

(** *** The account forms of [app.py] *)

(** Truth value of an [Optional[int]]: [if uid:], [if new_id:] *)
Definition truthy_id (o : option Z) : bool :=
  match o with
  | Some n => negb (n =? 0)
  | None => false
  end.

(** What the sign-up form shows. *)
Inductive signup_message : Type :=
| ProvideBoth       (* Please provide username and password. *)
| PasswordsDiffer   (* Passwords do not match. *)
| AccountCreated    (* Account created - you can now log in. *)
| ExistsOrInvalid.  (* Username already exists or invalid input. *)

(** The sign-up form submitted. *)
Definition signup (uname pwd pwd2 : string) (salt created_at : string)
  : M signup_message :=
  if negb (Py.truthy uname) || negb (Py.truthy pwd) then ret ProvideBoth
  else if negb (String.eqb pwd pwd2) then ret PasswordsDiffer
  else
    new_id <- create_user (Py.strip uname) pwd salt created_at ;;
    if truthy_id new_id then ret AccountCreated else ret ExistsOrInvalid.

(** The login form submitted: the [user_id] and [username] it puts in the
    session state, or [None] with "Invalid username or password." *)
Definition login (uname pwd : string) : M (option (Z * string)) :=
  uid <- authenticate_user uname pwd ;;
  match uid with
  | Some id => if truthy_id uid then ret (Some (id, Py.strip uname)) else ret None
  | None => ret None
  end.

(** * Properties *)

(** ** Lists *)

Lemma filter_all {A} (f : A -> bool) (l : list A) :
  (forall x, In x l -> f x = true) -> filter f l = l.
Proof.
  induction l as [|x l IH]; simpl; intros H; [reflexivity|].
  rewrite (H x (or_introl eq_refl)), IH; auto.
Qed.

Lemma map_fixed {A} (f : A -> A) (l : list A) :
  (forall x, In x l -> f x = x) -> map f l = l.
Proof.
  induction l as [|x l IH]; simpl; intros H; [reflexivity|].
  rewrite (H x (or_introl eq_refl)), IH; auto.
Qed.

Lemma existsb_none {A} (f : A -> bool) (l : list A) :
  (forall x, In x l -> f x = false) -> existsb f l = false.
Proof.
  induction l as [|x l IH]; simpl; intros H; [reflexivity|].
  rewrite (H x (or_introl eq_refl)), IH; auto.
Qed.

Lemma db_eta (d : db) :
  mk_db (users d) (users_seq d) (expenses d) (expenses_seq d) (budgets d) = d.
Proof. destruct d; reflexivity. Qed.

(** ** Ownership *)

Lemma owned_by_true user_id expense_id e :
  owned_by user_id expense_id e = true <->
  e_user_id e = user_id /\ e_id e = expense_id.
Proof.
  unfold owned_by. rewrite andb_true_iff, !Z.eqb_eq. tauto.
Qed.

Lemma owned_by_false user_id expense_id e :
  (e_id e = expense_id -> e_user_id e <> user_id) ->
  owned_by user_id expense_id e = false.
Proof.
  intros H. destruct (owned_by user_id expense_id e) eqn:E; [|reflexivity].
  apply owned_by_true in E. destruct E as [E1 E2]. now elim (H E2).
Qed.

Lemma delete_expense_untouched user_id expense_id d :
  (forall e, In e (expenses d) -> e_id e = expense_id -> e_user_id e <> user_id) ->
  delete_expense user_id expense_id d = Ok tt d.
Proof.
  intros H. unfold delete_expense. rewrite filter_all.
  - now rewrite db_eta.
  - intros e He. rewrite owned_by_false; auto.
Qed.

Lemma update_expense_untouched user_id expense_id date category amount note d :
  (forall e, In e (expenses d) -> e_id e = expense_id -> e_user_id e <> user_id) ->
  update_expense user_id expense_id date category amount note d = Ok tt d.
Proof.
  intros H. unfold update_expense.
  rewrite existsb_none by (intros e He; apply owned_by_false; auto).
  simpl. rewrite map_fixed.
  - now rewrite db_eta.
  - intros e He. rewrite owned_by_false; auto.
Qed.

Lemma some_owned_dec user_id expense_id (l : list expense_row) :
  (exists e, In e l /\ e_id e = expense_id /\ e_user_id e = user_id)
  \/ (forall e, In e l -> e_id e = expense_id -> e_user_id e <> user_id).
Proof.
  destruct (existsb (owned_by user_id expense_id) l) eqn:E.
  - left. apply existsb_exists in E. destruct E as (e & He & Ho).
    apply owned_by_true in Ho. exists e. tauto.
  - right. intros e He Hid Hu.
    assert (existsb (owned_by user_id expense_id) l = true); [|congruence].
    apply existsb_exists. exists e. split; [assumption|].
    apply owned_by_true. tauto.
Qed.

(** With its parameters INTEGERs a statement runs as it is. *)
Lemma execute_bound {A} (user_id expense_id : Z) (statement : M A) (d : db) :
  INTEGER user_id = true -> INTEGER expense_id = true ->
  execute [user_id; expense_id] statement d = statement d.
Proof. intros Hu Hi. unfold execute. simpl. now rewrite Hu, Hi. Qed.

(** What a statement returns when run with parameters, it returns when
    run with them bound. *)
Lemma execute_returns {A} (parameters : list Z) (statement : M A) (d : db)
    (a : A) (d' : db) :
  execute parameters statement d = Ok a d' -> statement d = Ok a d'.
Proof.
  unfold execute. destruct (forallb INTEGER parameters); [auto|discriminate].
Qed.

(** C9, as the code has it. [delete_expense] and [update_expense], called
    with a user and an expense identifier that are INTEGERs of SQLite
    (64 bits, signed) and that no row carries together (no such expense,
    or an expense of another user), return normally and leave the whole
    database as it was; and whenever one of them returns a database that
    differs from the one it started from, an expense with that identifier
    existed and belonged to that user. Called with an identifier that is
    no INTEGER they raise [OverflowError]. *)
Theorem delete_update_silent_noop (d : db) (user_id expense_id : Z) :
  (INTEGER user_id = true -> INTEGER expense_id = true ->
   (forall e, In e (expenses d) -> e_id e = expense_id -> e_user_id e <> user_id) ->
   execute [user_id; expense_id] (delete_expense user_id expense_id) d = Ok tt d
   /\ forall date category amount note,
       execute [user_id; expense_id]
               (update_expense user_id expense_id date category amount note) d
       = Ok tt d)
  /\ (forall d',
        execute [user_id; expense_id] (delete_expense user_id expense_id) d
        = Ok tt d' ->
        d' <> d ->
        exists e, In e (expenses d) /\ e_id e = expense_id /\ e_user_id e = user_id)
  /\ (forall date category amount note d',
        execute [user_id; expense_id]
                (update_expense user_id expense_id date category amount note) d
        = Ok tt d' ->
        d' <> d ->
        exists e, In e (expenses d) /\ e_id e = expense_id /\ e_user_id e = user_id)
  /\ (INTEGER user_id = false \/ INTEGER expense_id = false ->
      execute [user_id; expense_id] (delete_expense user_id expense_id) d
      = Raise OverflowError
      /\ forall date category amount note,
          execute [user_id; expense_id]
                  (update_expense user_id expense_id date category amount note) d
          = Raise OverflowError).
Proof.
  split; [|split; [|split]].
  - intros Hu Hi H. split.
    + rewrite execute_bound by assumption. now apply delete_expense_untouched.
    + intros. rewrite execute_bound by assumption.
      now apply update_expense_untouched.
  - intros d' Hrun Hneq. apply execute_returns in Hrun.
    destruct (some_owned_dec user_id expense_id (expenses d)) as [Hex|Hno];
      [assumption|].
    rewrite (delete_expense_untouched _ _ _ Hno) in Hrun.
    inversion Hrun. congruence.
  - intros date category amount note d' Hrun Hneq. apply execute_returns in Hrun.
    destruct (some_owned_dec user_id expense_id (expenses d)) as [Hex|Hno];
      [assumption|].
    rewrite (update_expense_untouched _ _ date category amount note _ Hno) in Hrun.
    inversion Hrun. congruence.
  - intros Hout.
    assert (E : forallb INTEGER [user_id; expense_id] = false).
    { simpl. destruct Hout as [-> | ->]; [reflexivity|].
      now rewrite andb_false_r. }
    unfold execute. now rewrite E.
Qed.

(** ** Row ids *)

Lemma max_rowid_ge (ids : list Z) (x : Z) : In x ids -> x <= max_rowid ids.
Proof.
  induction ids as [|y ids IH]; simpl; [tauto|].
  intros [->|H]; [lia|]. specialize (IH H). lia.
Qed.

Lemma next_rowid_above_seq ids seq : seq < next_rowid ids seq.
Proof. unfold next_rowid. lia. Qed.

Lemma next_rowid_fresh ids seq x : In x ids -> x < next_rowid ids seq.
Proof. intros H. apply max_rowid_ge in H. unfold next_rowid. lia. Qed.

Lemma note_or_empty (note : string) :
  (if Py.truthy note then note else "") = note.
Proof. destruct note; reflexivity. Qed.

(** ** What a call does to the tables *)

Lemma create_user_frame u p salt ts d :
  let d' := committed (create_user u p salt ts) d in
  expenses d' = expenses d /\ expenses_seq d' = expenses_seq d
  /\ budgets d' = budgets d.
Proof.
  unfold committed, create_user, bind, ret, select_user_by_username, insert_user.
  destruct (negb (Py.truthy (Py.strip u)) || negb (Py.truthy p)); simpl; auto.
  destruct (find _ (users d)); simpl; auto.
  destruct (existsb _ (users d)); simpl; auto.
Qed.

(** A row found after a call was there before with the same identifier
    and owner, or was inserted by the call under a new identifier. *)
Lemma after_expense_origin (c : call) (d : db) (e' : expense_row) :
  In e' (expenses (after c d)) ->
  (exists e, In e (expenses d) /\ e_id e = e_id e' /\ e_user_id e = e_user_id e')
  \/ expenses_seq d < e_id e'.
Proof.
  destruct c; simpl.
  - destruct (create_user_frame username password salt created_at d) as (-> & _).
    intros H. left. now exists e'.
  - unfold committed, add_expense, insert_expense.
    destruct (check_amount amount); simpl; intros H.
    + apply in_app_or in H. destruct H as [H|[<-|[]]].
      * left. now exists e'.
      * right. simpl. apply next_rowid_above_seq.
    + left. now exists e'.
  - unfold committed, delete_expense. simpl. intros H.
    apply filter_In in H. left. exists e'. tauto.
  - unfold committed, update_expense.
    destruct (existsb _ (expenses d) && negb (check_amount amount)); simpl; intros H.
    + left. now exists e'.
    + apply in_map_iff in H. destruct H as (e & <- & He).
      left. exists e. destruct (owned_by user_id expense_id e); auto.
  - unfold committed, set_budget.
    destruct (check_amount amount); simpl; intros H; left; now exists e'.
Qed.

Lemma after_expenses_seq (c : call) (d : db) :
  expenses_seq d <= expenses_seq (after c d).
Proof.
  destruct c; simpl.
  - destruct (create_user_frame username password salt created_at d) as (_ & -> & _).
    lia.
  - unfold committed, add_expense, insert_expense.
    destruct (check_amount amount); simpl; [|lia].
    pose proof (next_rowid_above_seq (map e_id (expenses d)) (expenses_seq d)). lia.
  - unfold committed, delete_expense. simpl. lia.
  - unfold committed, update_expense.
    destruct (existsb _ (expenses d) && negb (check_amount amount)); simpl; lia.
  - unfold committed, set_budget. destruct (check_amount amount); simpl; lia.
Qed.

Lemma issued_to_after id owner c d :
  issued_to id owner d -> issued_to id owner (after c d).
Proof.
  intros [Hseq Hown]. split.
  - pose proof (after_expenses_seq c d). lia.
  - intros e' He' Hid.
    destruct (after_expense_origin c d e' He') as [(e & He & Hi & Hu)|Hnew].
    + rewrite <- Hu. apply Hown; [assumption|congruence].
    + lia.
Qed.

Lemma issued_to_after_all id owner cs d :
  issued_to id owner d -> issued_to id owner (after_all cs d).
Proof.
  revert d. induction cs as [|c cs IH]; simpl; intros d H; [assumption|].
  apply IH. now apply issued_to_after.
Qed.

Lemma add_expense_inv user_id date category amount note d id d1 :
  add_expense user_id date category amount note d = Ok id d1 ->
  check_amount amount = true
  /\ id = next_rowid (map e_id (expenses d)) (expenses_seq d)
  /\ d1 = mk_db (users d) (users_seq d)
                (expenses d ++ [mk_expense id user_id date category amount note])
                id (budgets d).
Proof.
  unfold add_expense, insert_expense. rewrite note_or_empty.
  destruct (check_amount amount); [|discriminate].
  intros H. inversion H. subst. auto.
Qed.

Lemma add_expense_issued user_id date category amount note d id d1 :
  add_expense user_id date category amount note d = Ok id d1 ->
  issued_to id user_id d1.
Proof.
  intros H. apply add_expense_inv in H. destruct H as (_ & Hid & ->).
  split; simpl; [lia|].
  intros e He Heq. apply in_app_or in He. destruct He as [He|[<-|[]]].
  - apply (in_map e_id) in He.
    apply (next_rowid_fresh _ (expenses_seq d)) in He. lia.
  - reflexivity.
Qed.

(** ** The expense query *)

Lemma get_expenses_df_query user_id start_date end_date categories :
  get_expenses_df user_id start_date end_date categories
  = read_sql_query (UserIdEq user_id :: filters start_date end_date categories).
Proof.
  unfold get_expenses_df, filters.
  destruct start_date as [[|? ?]|], end_date as [[|? ?]|],
           categories as [[|? ?]|]; reflexivity.
Qed.

Lemma where_In (query : list cond) (rows : list expense_row) (e : expense_row) :
  In e (where_ query rows) <->
  In e rows /\ forall c, In c query -> holds c e = true.
Proof.
  unfold where_. rewrite filter_In, forallb_forall. tauto.
Qed.

Lemma insert_row_perm r l : Permutation (insert_row r l) (r :: l).
Proof.
  induction l as [|x l IH]; simpl; [reflexivity|].
  destruct (date_id_leb r x); [reflexivity|].
  rewrite IH. apply perm_swap.
Qed.

Lemma order_by_date_id_perm rows : Permutation (order_by_date_id rows) rows.
Proof.
  induction rows as [|r rows IH]; simpl; [constructor|].
  rewrite insert_row_perm. now constructor.
Qed.

Lemma order_by_date_id_In rows e : In e (order_by_date_id rows) <-> In e rows.
Proof.
  split; apply Permutation_in;
    [|symmetry]; apply order_by_date_id_perm.
Qed.

(** The rows the query returns are those of the user's expenses that pass
    every appended condition. *)
Lemma get_expenses_df_rows user_id start_date end_date categories d :
  exists rows,
    get_expenses_df user_id start_date end_date categories d = Ok rows d
    /\ forall r, In r rows <->
        exists e, In e (expenses d) /\ e_user_id e = user_id
                  /\ (forall c, In c (filters start_date end_date categories) ->
                                holds c e = true)
                  /\ r = select_columns e.
Proof.
  rewrite get_expenses_df_query. unfold read_sql_query.
  eexists. split; [reflexivity|].
  intros r. rewrite in_map_iff. split.
  - intros (e & <- & He). apply order_by_date_id_In, where_In in He.
    destruct He as [He Hq]. exists e. repeat split; auto.
    + apply Z.eqb_eq. apply (Hq (UserIdEq user_id)). now left.
    + intros c Hc. apply Hq. now right.
  - intros (e & He & Hu & Hq & ->). exists e. split; [reflexivity|].
    apply order_by_date_id_In, where_In. split; [assumption|].
    intros c [<-|Hc]; [simpl; now apply Z.eqb_eq | now apply Hq].
Qed.

(** C1. Isolation. An expense added for user [A] is stored under [A], and
    from then on, whatever calls follow, no query for another user [B]
    returns a row with its identifier, whatever the filters, and
    [delete_expense] with [B] and that identifier changes nothing, so the
    expense stays as it is. *)
Theorem cross_user_isolation
    (d : db) (A B : Z) (date category : string) (amount : real) (note : string)
    (id : Z) (d1 : db) :
  A <> B ->
  add_expense A date category amount note d = Ok id d1 ->
  In (mk_expense id A date category amount note) (expenses d1)
  /\ forall later : list call,
       let d2 := after_all later d1 in
       (forall start_date end_date categories,
          exists rows,
            get_expenses_df B start_date end_date categories d2 = Ok rows d2
            /\ ~ In id (map ID rows))
       /\ delete_expense B id d2 = Ok tt d2
       /\ (forall e, In e (expenses d2) -> e_id e = id -> e_user_id e = A).
Proof.
  intros HAB Hadd. split.
  - apply add_expense_inv in Hadd. destruct Hadd as (_ & _ & ->). simpl.
    apply in_or_app. right. now left.
  - intros later d2.
    assert (Hinv : issued_to id A d2)
      by (apply issued_to_after_all; eapply add_expense_issued; eassumption).
    destruct Hinv as [_ Hown]. split; [|split].
    + intros start_date end_date categories.
      destruct (get_expenses_df_rows B start_date end_date categories d2)
        as (rows & Hrun & Hrows).
      exists rows. split; [assumption|].
      intros Hin. apply in_map_iff in Hin. destruct Hin as (r & Hid & Hr).
      apply Hrows in Hr. destruct Hr as (e & He & Hu & _ & ->).
      simpl in Hid. specialize (Hown e He Hid). congruence.
    + apply delete_expense_untouched. intros e He Hid.
      rewrite (Hown e He Hid). assumption.
    + assumption.
Qed.

(** ** Users *)

Lemma truthy_false (s : string) : Py.truthy s = false <-> s = "".
Proof. destruct s; simpl; split; congruence. Qed.

Lemma find_app_some {A} (f : A -> bool) (l l' : list A) (x : A) :
  find f l = Some x -> find f (l ++ l') = Some x.
Proof.
  induction l as [|y l IH]; simpl; [discriminate|].
  destruct (f y); auto.
Qed.

Lemma find_app_none {A} (f : A -> bool) (l l' : list A) :
  find f l = None -> find f (l ++ l') = find f l'.
Proof.
  induction l as [|y l IH]; simpl; [reflexivity|].
  destruct (f y); [discriminate|auto].
Qed.

Lemma find_is_some {A} (f : A -> bool) (l : list A) (x : A) :
  In x l -> f x = true -> exists y, find f l = Some y.
Proof.
  intros Hin Hf. destruct (find f l) as [y|] eqn:E; [now exists y|].
  now rewrite (find_none _ _ E x Hin) in Hf.
Qed.

(** A call leaves [users] as it is or appends one row to it. *)
Lemma after_users (c : call) (d : db) :
  users (after c d) = users d
  \/ exists row, users (after c d) = users d ++ [row].
Proof.
  destruct c; simpl.
  - unfold committed, create_user, bind, ret, select_user_by_username, insert_user.
    destruct (negb (Py.truthy (Py.strip username)) || negb (Py.truthy password));
      simpl; auto.
    destruct (find _ (users d)); simpl; auto.
    destruct (existsb _ (users d)); simpl; auto.
    right. eexists. reflexivity.
  - unfold committed, add_expense, insert_expense.
    destruct (check_amount amount); simpl; auto.
  - left. reflexivity.
  - unfold committed, update_expense.
    destruct (existsb _ (expenses d) && negb (check_amount amount)); simpl; auto.
  - unfold committed, set_budget. destruct (check_amount amount); simpl; auto.
Qed.

Lemma after_all_users_found (f : user_row -> bool) (cs : list call) (d : db) u :
  find f (users d) = Some u -> find f (users (after_all cs d)) = Some u.
Proof.
  revert d. induction cs as [|c cs IH]; simpl; intros d H; [assumption|].
  apply IH. destruct (after_users c d) as [->|(row & ->)]; [assumption|].
  now apply find_app_some.
Qed.

Lemma create_user_inv username password salt created_at d id d1 :
  create_user username password salt created_at d = Ok (Some id) d1 ->
  let row := mk_user id (Py.strip username) (_hash_password password salt)
                     salt created_at in
  find (fun u => String.eqb (u_username u) (Py.strip username)) (users d) = None
  /\ d1 = mk_db (users d ++ [row]) id (expenses d) (expenses_seq d) (budgets d).
Proof.
  unfold create_user, bind, ret, select_user_by_username, insert_user.
  destruct (negb (Py.truthy (Py.strip username)) || negb (Py.truthy password));
    [discriminate|].
  destruct (find _ (users d)) eqn:Efind; [discriminate|].
  destruct (existsb _ (users d)); [discriminate|].
  intros H. inversion H. subst. auto.
Qed.

Lemma create_user_found username password salt created_at d id d1 :
  create_user username password salt created_at d = Ok (Some id) d1 ->
  find (fun u => String.eqb (u_username u) (Py.strip username)) (users d1)
  = Some (mk_user id (Py.strip username) (_hash_password password salt)
                  salt created_at).
Proof.
  intros H. apply create_user_inv in H. destruct H as [Hnone ->]. simpl.
  rewrite find_app_none by assumption. simpl. now rewrite String.eqb_refl.
Qed.


(** C3. [create_user] works on the trimmed username and returns [None],
    raising nothing and leaving the database as it was, when the trimmed
    username is empty, when the password is empty and when a user with the
    trimmed username exists. When it succeeds the user is stored under the
    trimmed username, and after any further calls [create_user] with that
    username returns [None] whatever the password. *)
Theorem create_user_failures
    (d : db) (username password salt created_at : string) :
  ((Py.strip username = "" \/ password = ""
    \/ exists u, In u (users d) /\ u_username u = Py.strip username) ->
   create_user username password salt created_at d = Ok None d)
  /\ (forall id d1,
        create_user username password salt created_at d = Ok (Some id) d1 ->
        (exists u, In u (users d1) /\ u_username u = Py.strip username
                   /\ u_id u = id)
        /\ forall (later : list call) password2 salt2 created_at2,
             let d2 := after_all later d1 in
             create_user username password2 salt2 created_at2 d2 = Ok None d2).
Proof.
  split.
  - intros H. unfold create_user, bind, ret, select_user_by_username.
    destruct (Py.truthy (Py.strip username)) eqn:Eu; [|reflexivity].
    destruct (Py.truthy password) eqn:Ep; [|reflexivity]. simpl.
    destruct H as [H|[H|(u & Hu & Hname)]].
    + apply truthy_false in H. congruence.
    + apply truthy_false in H. congruence.
    + destruct (find_is_some
                  (fun u => String.eqb (u_username u) (Py.strip username))
                  (users d) u Hu) as (y & ->);
        [now apply String.eqb_eq | reflexivity].
  - intros id d1 Hcreate.
    pose proof (create_user_found _ _ _ _ _ _ _ Hcreate) as Hfound. split.
    + apply find_some in Hfound. destruct Hfound as [Hin _].
      eexists. split; [exact Hin|]. split; reflexivity.
    + intros later password2 salt2 created_at2 d2.
      pose proof (after_all_users_found _ later d1 _ Hfound) as Hfind.
      fold d2 in Hfind.
      unfold create_user, bind, ret, select_user_by_username.
      destruct (negb (Py.truthy (Py.strip username)) || negb (Py.truthy password2));
        [reflexivity|].
      now rewrite Hfind.
Qed.

(** ** Order of the query result *)

Lemma ascii_compare_lt_trans (x y z : ascii) :
  Ascii.compare x y = Lt -> Ascii.compare y z = Lt -> Ascii.compare x z = Lt.
Proof.
  unfold Ascii.compare. rewrite !N.compare_lt_iff. lia.
Qed.

Lemma string_compare_lt_trans (a b c : string) :
  String.compare a b = Lt -> String.compare b c = Lt -> String.compare a c = Lt.
Proof.
  revert b c. induction a as [|x a IH]; intros [|y b] [|z c]; simpl;
    try discriminate; auto.
  destruct (Ascii.compare x y) eqn:Exy; try discriminate;
    destruct (Ascii.compare y z) eqn:Eyz; try discriminate; intros H1 H2.
  - apply Ascii.compare_eq_iff in Exy, Eyz. subst.
    assert (E : Ascii.compare z z = Eq)
      by (unfold Ascii.compare; apply N.compare_refl).
    rewrite E. eapply IH; eassumption.
  - apply Ascii.compare_eq_iff in Exy. subst. now rewrite Eyz.
  - apply Ascii.compare_eq_iff in Eyz. subst. now rewrite Exy.
  - now rewrite (ascii_compare_lt_trans x y z).
Qed.

Lemma string_compare_refl (a : string) : String.compare a a = Eq.
Proof.
  induction a as [|x a IH]; simpl; [reflexivity|].
  assert (E : Ascii.compare x x = Eq)
    by (unfold Ascii.compare; apply N.compare_refl).
  now rewrite E.
Qed.

Lemma string_compare_gt_lt (a b : string) :
  String.compare a b = Gt -> String.compare b a = Lt.
Proof.
  intros H. rewrite String.compare_antisym, H. reflexivity.
Qed.

Lemma date_id_leb_total (a b : expense_row) :
  date_id_leb a b = false -> date_id_leb b a = true.
Proof.
  unfold date_id_leb.
  destruct (String.compare (e_date a) (e_date b)) eqn:E; try discriminate.
  - apply String.compare_eq_iff in E. rewrite E, string_compare_refl.
    intros H. apply Z.leb_gt in H. apply Z.leb_le. lia.
  - intros _. now rewrite (string_compare_gt_lt _ _ E).
Qed.

Lemma date_id_leb_trans (a b c : expense_row) :
  date_id_leb a b = true -> date_id_leb b c = true -> date_id_leb a c = true.
Proof.
  unfold date_id_leb.
  destruct (String.compare (e_date a) (e_date b)) eqn:Eab; try discriminate;
    destruct (String.compare (e_date b) (e_date c)) eqn:Ebc; try discriminate;
    intros H1 H2.
  - apply String.compare_eq_iff in Eab, Ebc. rewrite Eab, Ebc, string_compare_refl.
    apply Z.leb_le in H1, H2. apply Z.leb_le. lia.
  - apply String.compare_eq_iff in Eab. now rewrite Eab, Ebc.
  - apply String.compare_eq_iff in Ebc. now rewrite <- Ebc, Eab.
  - now rewrite (string_compare_lt_trans _ _ _ Eab Ebc).
Qed.

Lemma insert_row_sorted (r : expense_row) (l : list expense_row) :
  StronglySorted (fun a b => date_id_leb a b = true) l ->
  StronglySorted (fun a b => date_id_leb a b = true) (insert_row r l).
Proof.
  induction l as [|x l IH]; simpl; intros Hs.
  - constructor; constructor.
  - inversion Hs as [|? ? Hs' Hx]; subst.
    destruct (date_id_leb r x) eqn:E.
    + constructor; [assumption|]. constructor; [assumption|].
      rewrite Forall_forall in *. intros y Hy.
      eapply date_id_leb_trans; [exact E|auto].
    + constructor; [auto|].
      rewrite Forall_forall in *. intros y Hy.
      apply (Permutation_in _ (insert_row_perm r l)) in Hy.
      destruct Hy as [<-|Hy]; [now apply date_id_leb_total|auto].
Qed.

Lemma order_by_date_id_sorted (rows : list expense_row) :
  StronglySorted (fun a b => date_id_leb a b = true) (order_by_date_id rows).
Proof.
  induction rows as [|r rows IH]; simpl; [constructor|].
  now apply insert_row_sorted.
Qed.

Lemma date_id_leb_columns (a b : expense_row) :
  date_id_leb a b = true -> date_then_id (select_columns a) (select_columns b).
Proof.
  unfold date_id_leb, date_then_id, String.ltb. simpl.
  destruct (String.compare (e_date a) (e_date b)) eqn:E; try discriminate.
  - intros H. right. split; [now apply String.compare_eq_iff | now apply Z.leb_le].
  - intros _. now left.
Qed.

Lemma StronglySorted_map {A B} (R : A -> A -> Prop) (S : B -> B -> Prop)
    (f : A -> B) (l : list A) :
  (forall a b, R a b -> S (f a) (f b)) ->
  StronglySorted R l -> StronglySorted S (map f l).
Proof.
  intros HRS. induction 1 as [|a l Hs IH Ha]; simpl; constructor; auto.
  rewrite Forall_forall in *. intros y Hy.
  apply in_map_iff in Hy. destruct Hy as (b & <- & Hb). auto.
Qed.

Lemma read_sql_query_sorted (query : list cond) (d : db) (rows : list df_row) :
  read_sql_query query d = Ok rows d -> StronglySorted date_then_id rows.
Proof.
  unfold read_sql_query. intros H. inversion H.
  eapply StronglySorted_map; [exact date_id_leb_columns|].
  apply order_by_date_id_sorted.
Qed.

Lemma keys_distinct_in_filter {Row Key} (key : Row -> Key) (keep : Row -> bool)
    (rows : list Row) :
  NoDup (map key rows) -> NoDup (map key (filter keep rows)).
Proof.
  intros Hnd. induction rows as [|x rows IH]; simpl; [constructor|].
  inversion Hnd as [|? ? Hx Hl]; subst.
  destruct (keep x); simpl; auto.
  constructor; auto.
  intros Hin. apply Hx. apply in_map_iff in Hin.
  destruct Hin as (y & Hy & Hyin). apply filter_In in Hyin.
  apply in_map_iff. exists y. tauto.
Qed.

Lemma read_sql_query_distinct (query : list cond) (d : db) (rows : list df_row) :
  expenses_pk d -> read_sql_query query d = Ok rows d -> NoDup (map ID rows).
Proof.
  unfold read_sql_query, expenses_pk. intros Hpk H. inversion H.
  rewrite map_map. simpl.
  change (NoDup (map e_id (order_by_date_id (where_ query (expenses d))))).
  eapply Permutation_NoDup.
  - symmetry. apply Permutation_map. apply order_by_date_id_perm.
  - now apply keys_distinct_in_filter.
Qed.

Lemma filters_hold (start_date end_date : option string)
    (categories : option (list string)) (e : expense_row) :
  (forall c, In c (filters start_date end_date categories) -> holds c e = true)
  <->
  (forall s, start_date = Some s -> s <> "" -> String.leb s (e_date e) = true)
  /\ (forall s, end_date = Some s -> s <> "" -> String.leb (e_date e) s = true)
  /\ (forall cs, categories = Some cs -> cs <> [] -> In (e_category e) cs).
Proof.
  assert (Hcat : forall cs, holds (CategoryIn cs) e = true <-> In (e_category e) cs).
  { intros cs. simpl. rewrite existsb_exists. split.
    - intros (c & Hc & E). apply String.eqb_eq in E. now subst.
    - intros H. exists (e_category e). split; [assumption|apply String.eqb_refl]. }
  unfold filters. split.
  - intros H. repeat split.
    + intros s -> Hs. apply (H (DateGe s)). destruct s; [congruence|].
      simpl. now left.
    + intros s -> Hs. apply (H (DateLe s)). destruct s; [congruence|].
      apply in_or_app. right. apply in_or_app. left. simpl. now left.
    + intros cs -> Hcs. apply Hcat. apply H. destruct cs; [congruence|].
      apply in_or_app. right. apply in_or_app. right. now left.
  - intros (Hs & He & Hc) c Hin.
    apply in_app_or in Hin. destruct Hin as [Hin|Hin];
      [|apply in_app_or in Hin; destruct Hin as [Hin|Hin]].
    + destruct start_date as [[|x s]|]; simpl in Hin; try tauto.
      destruct Hin as [<-|[]]. apply Hs; [reflexivity|discriminate].
    + destruct end_date as [[|x s]|]; simpl in Hin; try tauto.
      destruct Hin as [<-|[]]. apply He; [reflexivity|discriminate].
    + destruct categories as [[|x cs]|]; simpl in Hin; try tauto.
      destruct Hin as [<-|[]]. apply Hcat. apply Hc; [reflexivity|discriminate].
Qed.

(** C4, as the code has it. For every user and every start date, end
    date and category list, each present or not, the query returns exactly
    the user's expenses that pass every filter that is present and not
    empty (date not before a non-empty start date, date not after a
    non-empty end date, category in a non-empty category list), a filter
    that is absent or empty restricting nothing; each expense is returned
    once, and the rows are in ascending date order, rows of one date in
    ascending identifier order. *)
Theorem query_filters_and_order
    (d : db) (user_id : Z) (start_date end_date : option string)
    (categories : option (list string)) :
  exists rows,
    get_expenses_df user_id start_date end_date categories d = Ok rows d
    /\ (forall r, In r rows <->
         exists e, In e (expenses d) /\ r = select_columns e
           /\ e_user_id e = user_id
           /\ (forall s, start_date = Some s -> s <> "" ->
                         String.leb s (e_date e) = true)
           /\ (forall s, end_date = Some s -> s <> "" ->
                         String.leb (e_date e) s = true)
           /\ (forall cs, categories = Some cs -> cs <> [] ->
                          In (e_category e) cs))
    /\ StronglySorted date_then_id rows
    /\ (expenses_pk d -> NoDup (map ID rows)).
Proof.
  destruct (get_expenses_df_rows user_id start_date end_date categories d)
    as (rows & Hrun & Hrows).
  exists rows. split; [assumption|]. split; [|split].
  - intros r. rewrite Hrows. split.
    + intros (e & He & Hu & Hf & ->). exists e.
      apply filters_hold in Hf. tauto.
    + intros (e & He & -> & Hu & Hf). exists e.
      repeat split; try assumption. now apply filters_hold.
  - rewrite get_expenses_df_query in Hrun.
    eapply read_sql_query_sorted; eassumption.
  - intros Hpk. rewrite get_expenses_df_query in Hrun.
    eapply read_sql_query_distinct; eassumption.
Qed.

(** C10. An empty start date, an empty end date and an empty category
    list are each treated as an absent filter, whatever the other filters
    are; with all three empty the query returns what the unfiltered query
    returns, which is every expense of the user, so an empty category list
    does not empty the result. *)
Theorem degenerate_filters_are_absent
    (d : db) (user_id : Z) (start_date end_date : option string)
    (categories : option (list string)) :
  get_expenses_df user_id (Some "") end_date categories d
  = get_expenses_df user_id None end_date categories d
  /\ get_expenses_df user_id start_date (Some "") categories d
     = get_expenses_df user_id start_date None categories d
  /\ get_expenses_df user_id start_date end_date (Some []) d
     = get_expenses_df user_id start_date end_date None d
  /\ get_expenses_df user_id (Some "") (Some "") (Some []) d
     = get_expenses_df user_id None None None d
  /\ exists rows,
       get_expenses_df user_id (Some "") (Some "") (Some []) d = Ok rows d
       /\ forall e, In e (expenses d) -> e_user_id e = user_id ->
                    In (select_columns e) rows.
Proof.
  repeat split; try reflexivity.
  destruct (get_expenses_df_rows user_id (Some "") (Some "") (Some []) d)
    as (rows & Hrun & Hrows).
  exists rows. split; [assumption|].
  intros e He Hu. apply Hrows. exists e. repeat split; try assumption.
  simpl. tauto.
Qed.

(** ** Adding and updating *)

(** The unfiltered query returns the user's expenses, column by column. *)
Lemma get_expenses_df_all (user_id : Z) (d : db) :
  exists rows,
    get_expenses_df user_id None None None d = Ok rows d
    /\ forall r, In r rows <->
        exists e, In e (expenses d) /\ e_user_id e = user_id
                  /\ r = select_columns e.
Proof.
  destruct (get_expenses_df_rows user_id None None None d) as (rows & Hrun & Hrows).
  exists rows. split; [assumption|].
  intros r. rewrite Hrows. split.
  - intros (e & He & Hu & _ & ->). now exists e.
  - intros (e & He & Hu & ->). exists e. repeat split; try assumption.
    simpl. tauto.
Qed.

Lemma update_expense_rows user_id expense_id date category amount note d d1 :
  update_expense user_id expense_id date category amount note d = Ok tt d1 ->
  forall e1, In e1 (expenses d1) <->
    exists e, In e (expenses d)
      /\ e1 = (if owned_by user_id expense_id e
               then mk_expense expense_id user_id date category amount note
               else e).
Proof.
  unfold update_expense.
  destruct (existsb _ (expenses d) && negb (check_amount amount)); [discriminate|].
  intros H. inversion H. subst. simpl. intros e1. rewrite in_map_iff.
  split; intros (e & H1 & H2); exists e.
  - split; [assumption|]. subst e1.
    destruct (owned_by user_id expense_id e) eqn:E; [|reflexivity].
    apply owned_by_true in E. destruct E as [-> ->]. reflexivity.
  - split; [|assumption]. subst e1.
    destruct (owned_by user_id expense_id e) eqn:E; [|reflexivity].
    apply owned_by_true in E. destruct E as [<- <-]. reflexivity.
Qed.

(** C5. Round trip. With an amount the schema accepts, [add_expense]
    returns a new identifier and the unfiltered query for the user then
    has a row with that identifier and exactly the date, category, amount
    and note passed, and no other row with that identifier. On an expense
    the user owns, [update_expense] succeeds and the unfiltered query then
    shows the new values in the row of that identifier, and every row of
    another identifier is in the result, and in the table, exactly when it
    was before. *)
Theorem add_update_round_trip
    (d : db) (user_id : Z) (date category : string) (amount : real)
    (note : string) :
  check_amount amount = true ->
  (exists id d1 rows,
      add_expense user_id date category amount note d = Ok id d1
      /\ get_expenses_df user_id None None None d1 = Ok rows d1
      /\ In (mk_df_row id date category amount note) rows
      /\ forall r, In r rows -> ID r = id ->
                   r = mk_df_row id date category amount note)
  /\ (forall expense_id,
        (exists e, In e (expenses d) /\ e_id e = expense_id
                   /\ e_user_id e = user_id) ->
        exists d1 rows0 rows1,
          update_expense user_id expense_id date category amount note d = Ok tt d1
          /\ get_expenses_df user_id None None None d = Ok rows0 d
          /\ get_expenses_df user_id None None None d1 = Ok rows1 d1
          /\ In (mk_df_row expense_id date category amount note) rows1
          /\ (forall r, In r rows1 -> ID r = expense_id ->
                        r = mk_df_row expense_id date category amount note)
          /\ (forall r, ID r <> expense_id -> (In r rows1 <-> In r rows0))
          /\ (forall e', e_id e' <> expense_id ->
                         (In e' (expenses d1) <-> In e' (expenses d)))).
Proof.
  intros Hcheck. split.
  - set (id := next_rowid (map e_id (expenses d)) (expenses_seq d)).
    set (d1 := mk_db (users d) (users_seq d)
                     (expenses d ++ [mk_expense id user_id date category amount note])
                     id (budgets d)).
    destruct (get_expenses_df_all user_id d1) as (rows & Hrun & Hrows).
    exists id, d1, rows. split; [|split; [assumption|split]].
    + unfold add_expense, insert_expense. rewrite note_or_empty, Hcheck.
      reflexivity.
    + apply Hrows. exists (mk_expense id user_id date category amount note).
      repeat split. simpl. apply in_or_app. right. now left.
    + intros r Hr Hid. apply Hrows in Hr. destruct Hr as (e & He & Hu & ->).
      simpl in He, Hid. apply in_app_or in He. destruct He as [He|[<-|[]]].
      * apply (in_map e_id) in He.
        apply (next_rowid_fresh _ (expenses_seq d)) in He. fold id in He. lia.
      * reflexivity.
  - intros expense_id (e0 & He0 & Hid0 & Hu0).
    assert (Hrun : exists d1,
      update_expense user_id expense_id date category amount note d = Ok tt d1).
    { unfold update_expense. rewrite Hcheck, andb_false_r. eexists. reflexivity. }
    destruct Hrun as (d1 & Hrun).
    pose proof (update_expense_rows _ _ _ _ _ _ _ _ Hrun) as Hupd.
    destruct (get_expenses_df_all user_id d) as (rows0 & Hrun0 & Hrows0).
    destruct (get_expenses_df_all user_id d1) as (rows1 & Hrun1 & Hrows1).
    exists d1, rows0, rows1. repeat (split; [assumption|]).
    split; [|split; [|split]].
    + apply Hrows1.
      exists (mk_expense expense_id user_id date category amount note).
      repeat split. apply Hupd. exists e0. split; [assumption|].
      assert (E : owned_by user_id expense_id e0 = true)
        by (apply owned_by_true; tauto).
      now rewrite E.
    + intros r Hr Hid. apply Hrows1 in Hr. destruct Hr as (e1 & He1 & Hu1 & ->).
      apply Hupd in He1. destruct He1 as (e & He & ->).
      destruct (owned_by user_id expense_id e) eqn:E; [reflexivity|].
      simpl in Hid.
      assert (owned_by user_id expense_id e = true)
        by (apply owned_by_true; tauto).
      congruence.
    + intros r Hid. rewrite Hrows0, Hrows1. split.
      * intros (e1 & He1 & Hu1 & ->). apply Hupd in He1.
        destruct He1 as (e & He & ->).
        destruct (owned_by user_id expense_id e); [now elim Hid|].
        now exists e.
      * intros (e & He & Hu & ->). exists e. repeat split; try assumption.
        apply Hupd. exists e. split; [assumption|].
        destruct (owned_by user_id expense_id e) eqn:E; [|reflexivity].
        apply owned_by_true in E. simpl in Hid. tauto.
    + intros e' Hid. rewrite Hupd. split.
      * intros (e & He & ->).
        destruct (owned_by user_id expense_id e); [now elim Hid|assumption].
      * intros He. exists e'. split; [assumption|].
        destruct (owned_by user_id expense_id e') eqn:E; [|reflexivity].
        apply owned_by_true in E. tauto.
Qed.

(** ** Budgets *)

Lemma budget_key_true user_id month b :
  budget_key user_id month b = true <-> b_user_id b = user_id /\ b_month b = month.
Proof.
  unfold budget_key. rewrite andb_true_iff, Z.eqb_eq, String.eqb_eq. tauto.
Qed.

Lemma filter_none {A} (f : A -> bool) (l : list A) :
  (forall x, In x l -> f x = false) -> filter f l = [].
Proof.
  induction l as [|x l IH]; simpl; intros H; [reflexivity|].
  rewrite (H x (or_introl eq_refl)). auto.
Qed.

Lemma find_filter {A} (f : A -> bool) (l : list A) :
  find f l = hd_error (filter f l).
Proof.
  induction l as [|x l IH]; simpl; [reflexivity|].
  destruct (f x); [reflexivity|assumption].
Qed.

Lemma set_budget_upsert user_id month amount d :
  committed (set_budget user_id month amount) d
  = mk_db (users d) (users_seq d) (expenses d) (expenses_seq d)
          (if check_amount amount then upsert user_id month amount (budgets d)
           else budgets d).
Proof.
  unfold committed, set_budget, upsert.
  destruct (check_amount amount); simpl; [reflexivity|].
  symmetry. apply db_eta.
Qed.

Lemma other_keys_miss user_id month (l : list budget_row) :
  ~ In (user_id, month) (map (fun b => (b_user_id b, b_month b)) l) ->
  forall b, In b l -> budget_key user_id month b = false.
Proof.
  intros Hnot b Hb. destruct (budget_key user_id month b) eqn:E; [|reflexivity].
  apply budget_key_true in E. destruct E as [E1 E2]. elim Hnot.
  apply in_map_iff. exists b. split; [congruence|assumption].
Qed.

Lemma upsert_keeps_pk user_id month amount (l : list budget_row) :
  NoDup (map (fun b => (b_user_id b, b_month b)) l) ->
  NoDup (map (fun b => (b_user_id b, b_month b)) (upsert user_id month amount l)).
Proof.
  intros Hnd. unfold upsert.
  destruct (existsb (budget_key user_id month) l) eqn:E.
  - rewrite map_map.
    erewrite map_ext; [exact Hnd|].
    intros b. simpl. now destruct (budget_key user_id month b).
  - rewrite map_app. simpl.
    eapply Permutation_NoDup; [apply Permutation_cons_append|].
    constructor; [|assumption].
    intros Hin. apply in_map_iff in Hin. destruct Hin as (b & Hk & Hb).
    assert (existsb (budget_key user_id month) l = true); [|congruence].
    apply existsb_exists. exists b. split; [assumption|].
    apply budget_key_true. inversion Hk. auto.
Qed.

Lemma pk_at_most_one user_id month (l : list budget_row) :
  NoDup (map (fun b => (b_user_id b, b_month b)) l) ->
  (List.length (filter (budget_key user_id month) l) <= 1)%nat.
Proof.
  induction l as [|b l IH]; simpl; intros Hnd; [lia|].
  inversion Hnd as [|? ? Hb Hl]; subst.
  destruct (budget_key user_id month b) eqn:E; [|auto].
  apply budget_key_true in E. destruct E as [E1 E2].
  rewrite filter_none; [simpl; lia|].
  apply other_keys_miss. now rewrite <- E1, <- E2.
Qed.

Lemma upsert_one_row user_id month amount (l : list budget_row) :
  NoDup (map (fun b => (b_user_id b, b_month b)) l) ->
  filter (budget_key user_id month) (upsert user_id month amount l)
  = [mk_budget user_id month amount].
Proof.
  unfold upsert. destruct (existsb (budget_key user_id month) l) eqn:Ex.
  - induction l as [|b l IH]; simpl in *; intros Hnd; [discriminate|].
    inversion Hnd as [|? ? Hb Hl]; subst.
    destruct (budget_key user_id month b) eqn:E.
    + assert (E' : budget_key user_id month
                     (mk_budget (b_user_id b) (b_month b) amount) = true)
        by exact E.
      rewrite E'. apply budget_key_true in E. destruct E as [E1 E2].
      rewrite E1, E2. f_equal.
      pose proof (other_keys_miss user_id month l) as Hmiss.
      rewrite <- E1, <- E2 in Hmiss. specialize (Hmiss Hb).
      rewrite E1, E2 in Hmiss.
      rewrite map_fixed by (intros x Hx; now rewrite (Hmiss x Hx)).
      now apply filter_none.
    + rewrite E. apply IH; assumption.
  - intros _. rewrite filter_app, filter_none.
    + simpl. unfold budget_key. simpl. now rewrite Z.eqb_refl, String.eqb_refl.
    + intros x Hx. destruct (budget_key user_id month x) eqn:E; [|reflexivity].
      assert (existsb (budget_key user_id month) l = true); [|congruence].
      apply existsb_exists. now exists x.
Qed.

Lemma budgets_pk_after (c : call) (d : db) : budgets_pk d -> budgets_pk (after c d).
Proof.
  unfold budgets_pk. destruct c; simpl.
  - destruct (create_user_frame username password salt created_at d)
      as (_ & _ & ->). auto.
  - unfold committed, add_expense, insert_expense.
    destruct (check_amount amount); simpl; auto.
  - auto.
  - unfold committed, update_expense.
    destruct (existsb _ (expenses d) && negb (check_amount amount)); simpl; auto.
  - rewrite set_budget_upsert. simpl.
    destruct (check_amount amount); [apply upsert_keeps_pk|auto].
Qed.

Lemma budgets_pk_after_all (cs : list call) (d : db) :
  budgets_pk d -> budgets_pk (after_all cs d).
Proof.
  revert d. induction cs as [|c cs IH]; simpl; intros d H; [assumption|].
  apply IH. now apply budgets_pk_after.
Qed.

Lemma set_budget_sets user_id month amount d :
  check_amount amount = true ->
  budgets_pk d ->
  exists d1,
    set_budget user_id month amount d = Ok tt d1
    /\ budgets_pk d1
    /\ filter (budget_key user_id month) (budgets d1)
       = [mk_budget user_id month amount]
    /\ get_budget user_id month d1 = Ok (Some amount) d1.
Proof.
  intros Hcheck Hpk.
  pose proof (set_budget_upsert user_id month amount d) as Hc.
  unfold committed in Hc. rewrite Hcheck in Hc.
  destruct (set_budget user_id month amount d) as [[] d1|e] eqn:Hrun.
  - exists d1. split; [reflexivity|]. subst d1.
    assert (Hone := upsert_one_row user_id month amount (budgets d) Hpk).
    split; [|split].
    + unfold budgets_pk. simpl. now apply upsert_keeps_pk.
    + exact Hone.
    + unfold get_budget. simpl. rewrite find_filter, Hone. reflexivity.
  - unfold set_budget in Hrun. rewrite Hcheck in Hrun. discriminate.
Qed.

(** C8. Budget upsert. With the primary key of [budgets] holding, it
    holds after any calls, so no user and month ever have two budget
    rows; [set_budget] with an amount the schema accepts leaves exactly
    one row for the user and month, holding that amount, whether or not
    there was one, and [get_budget] returns it; two [set_budget] calls in
    a row leave one row with the second amount. *)
Theorem budget_upsert (d : db) (user_id : Z) (month : string) :
  budgets_pk d ->
  (forall (later : list call) u m,
      (List.length (filter (budget_key u m) (budgets (after_all later d))) <= 1)%nat)
  /\ (forall amount,
        check_amount amount = true ->
        exists d1,
          set_budget user_id month amount d = Ok tt d1
          /\ filter (budget_key user_id month) (budgets d1)
             = [mk_budget user_id month amount]
          /\ get_budget user_id month d1 = Ok (Some amount) d1)
  /\ (forall amount1 amount2,
        check_amount amount1 = true -> check_amount amount2 = true ->
        exists d1 d2,
          set_budget user_id month amount1 d = Ok tt d1
          /\ set_budget user_id month amount2 d1 = Ok tt d2
          /\ filter (budget_key user_id month) (budgets d2)
             = [mk_budget user_id month amount2]
          /\ get_budget user_id month d2 = Ok (Some amount2) d2).
Proof.
  intros Hpk. split; [|split].
  - intros later u m. apply pk_at_most_one.
    now apply budgets_pk_after_all.
  - intros amount Hcheck.
    destruct (set_budget_sets user_id month amount d Hcheck Hpk)
      as (d1 & Hrun & _ & Hone & Hget).
    exists d1. auto.
  - intros amount1 amount2 Hc1 Hc2.
    destruct (set_budget_sets user_id month amount1 d Hc1 Hpk)
      as (d1 & Hrun1 & Hpk1 & _ & _).
    destruct (set_budget_sets user_id month amount2 d1 Hc2 Hpk1)
      as (d2 & Hrun2 & _ & Hone & Hget).
    exists d1, d2. auto.
Qed.

(** ** Aggregates *)

Lemma coalesce_sum (xs : list real) : coalesce (sql_sum xs) real_zero = total_of xs.
Proof. destruct xs; reflexivity. Qed.

Lemma insert_by_perm {A} (leb : A -> A -> bool) (x : A) (l : list A) :
  Permutation (insert_by leb x l) (x :: l).
Proof.
  induction l as [|y l IH]; simpl; [reflexivity|].
  destruct (leb x y); [reflexivity|].
  rewrite IH. apply perm_swap.
Qed.

Lemma sort_by_perm {A} (leb : A -> A -> bool) (l : list A) :
  Permutation (sort_by leb l) l.
Proof.
  induction l as [|x l IH]; simpl; [reflexivity|].
  rewrite insert_by_perm. now constructor.
Qed.

Lemma categories_In (rows : list expense_row) (c : string) :
  In c (categories rows) <-> In c (map e_category rows).
Proof.
  unfold categories. split; intros H.
  - apply (nodup_In string_dec).
    eapply Permutation_in; [apply sort_by_perm|exact H].
  - eapply Permutation_in; [symmetry; apply sort_by_perm|].
    now apply nodup_In.
Qed.

Lemma get_month_total_sum (d : db) (user_id : Z) (month : string) :
  let total :=
    total_of (map e_amount
                  (order_by_date_id (filter (in_month user_id month) (expenses d)))) in
  get_month_total user_id month d
  = Ok (if real_truthy total then total else real_zero) d.
Proof.
  unfold get_month_total, idx_expenses_user_date, where_. rewrite coalesce_sum.
  erewrite filter_ext; [reflexivity|].
  intros e. unfold in_month. simpl. now rewrite andb_true_r, andb_assoc.
Qed.

Lemma linear_on_incl (l l' : list real) :
  incl l' l -> linear_on l -> linear_on l'.
Proof.
  intros Hincl [Htot Htrans]. split.
  - intros x y Hx Hy. apply Htot; auto.
  - intros x y z Hx Hy Hz. apply Htrans; auto.
Qed.

Lemma largest_total_max (g : string * real) (l : list (string * real)) :
  linear_on (map snd (g :: l)) ->
  In (largest_total g l) (g :: l)
  /\ forall x, In x (g :: l) -> real_leb (snd x) (snd (largest_total g l)) = true.
Proof.
  revert g. induction l as [|x l IH]; intros g Hlin.
  - simpl. split; [now left|]. intros y [<-|[]].
    destruct Hlin as [Htot _].
    destruct (Htot (snd g) (snd g)); simpl; auto.
  - simpl largest_total.
    set (g1 := if real_leb (snd x) (snd g) then g else x).
    assert (Hg1 : In g1 (g :: x :: l))
      by (unfold g1; destruct (real_leb (snd x) (snd g)); simpl; auto).
    assert (Hsub : incl (g1 :: l) (g :: x :: l)).
    { intros y [<-|Hy]; [assumption|]. simpl. auto. }
    assert (Hlin1 : linear_on (map snd (g1 :: l))).
    { eapply linear_on_incl; [|exact Hlin].
      intros v Hv. apply in_map_iff in Hv. destruct Hv as (y & <- & Hy).
      apply in_map. auto. }
    destruct (IH g1 Hlin1) as [Hin Hmax]. split; [auto|].
    destruct Hlin as [Htot Htrans].
    assert (Hb : In (snd (largest_total g1 l)) (map snd (g :: x :: l)))
      by (apply in_map; auto).
    assert (Hg : In (snd g) (map snd (g :: x :: l))) by (simpl; auto).
    assert (Hx : In (snd x) (map snd (g :: x :: l))) by (simpl; auto).
    assert (H1 : real_leb (snd g1) (snd (largest_total g1 l)) = true)
      by (apply Hmax; now left).
    intros y [<-|[<-|Hy]].
    + unfold g1 in H1 |- *. destruct (real_leb (snd x) (snd g)) eqn:E;
        [assumption|].
      apply (Htrans _ (snd x)); auto.
      destruct (Htot (snd x) (snd g) Hx Hg); congruence.
    + unfold g1 in H1 |- *. destruct (real_leb (snd x) (snd g)) eqn:E;
        [|assumption].
      apply (Htrans _ (snd g)); auto.
    + apply Hmax. now right.
Qed.

(** The statement [get_top_category] runs restricts by the bounds that are
    supplied. *)
Lemma top_category_rows (d : db) (user_id : Z) (start_date end_date : option string) :
  where_ (UserIdEq user_id :: filters start_date end_date None) (expenses d)
  = filter (in_range user_id (supplied start_date) (supplied end_date)) (expenses d).
Proof.
  unfold where_. apply filter_ext. intros e. unfold in_range, filters, supplied.
  destruct start_date as [[|x s]|], end_date as [[|y t]|];
    simpl; rewrite ?andb_true_r; try reflexivity;
    now rewrite andb_assoc.
Qed.

(** The groups [get_top_category] chooses from: a total for each category
    of a row in the range, the amounts added in the order [visited]. *)
Lemma get_top_category_groups (d : db) (user_id : Z)
    (start_date end_date : option string) :
  let rows :=
    filter (in_range user_id (supplied start_date) (supplied end_date))
           (expenses d) in
  exists cats,
    (forall c, In c cats <-> In c (map e_category rows))
    /\ get_top_category user_id start_date end_date d
       = Ok (order_by_total_desc_limit_1
               (map (fun c => (c, category_total
                                    (visited start_date end_date rows) c))
                    cats)) d.
Proof.
  intros rows.
  pose proof (top_category_rows d user_id start_date end_date) as Hrows.
  fold rows in Hrows.
  assert (Hmap : forall cats scanned,
    map (fun g => (fst g, coalesce (sql_sum (map e_amount (snd g))) real_zero))
        (group_by_category cats scanned)
    = map (fun c => (c, category_total scanned c)) cats).
  { intros cats scanned. unfold group_by_category. rewrite map_map.
    apply map_ext. intros c. simpl. now rewrite coalesce_sum. }
  unfold get_top_category, visited, supplied, filters in *.
  destruct start_date as [[|x s]|], end_date as [[|y t]|]; simpl in Hrows |- *;
    rewrite Hrows, Hmap;
    first [ exists (categories rows); split; [apply categories_In|reflexivity]
          | exists (rev (categories rows)); split;
            [intros c; rewrite <- in_rev; apply categories_In|reflexivity] ].
Qed.

(** C7, as the code has it. Top category. A date bound that is not given
    or is the empty string restricts nothing. With the order on amounts
    comparing the category totals at hand linearly, [get_top_category]
    returns [None] exactly when no expense of the user lies in the range,
    and otherwise a category of such an expense together with the sum of
    the amounts of the user's expenses of that category in the range
    (added in the order of the dates, then of the identifiers, under a date
    bound, and in the order of the identifiers without one), a sum that
    the sum of no other category over the range exceeds. *)
Theorem top_category_correct
    (d : db) (user_id : Z) (start_date end_date : option string) :
  let rows :=
    filter (in_range user_id (supplied start_date) (supplied end_date))
           (expenses d) in
  let scan := visited start_date end_date rows in
  linear_on (map (category_total scan) (map e_category rows)) ->
  exists result,
    get_top_category user_id start_date end_date d = Ok result d
    /\ (result = None <-> rows = [])
    /\ forall category total,
         result = Some (category, total) ->
         In category (map e_category rows)
         /\ total = category_total scan category
         /\ forall other, In other (map e_category rows) ->
                          real_leb (category_total scan other) total = true.
Proof.
  intros rows scan Hlin.
  destruct (get_top_category_groups d user_id start_date end_date)
    as (cats & Hcats & Hrun).
  fold rows in Hcats, Hrun. fold scan in Hrun.
  rewrite Hrun. eexists. split; [reflexivity|].
  destruct cats as [|c0 cats']; simpl.
  - split.
    + split; [|reflexivity]. intros _.
      destruct rows as [|e rows']; [reflexivity|].
      exfalso. apply (proj2 (Hcats (e_category e))). simpl. now left.
    + discriminate.
  - split.
    + split; [discriminate|]. intros Hnil. exfalso.
      assert (Hin : In c0 (map e_category rows)) by (apply Hcats; now left).
      rewrite Hnil in Hin. exact Hin.
    + intros category total Hres. inversion Hres as [Hbest]. clear Hres.
      destruct (largest_total_max
                  (c0, category_total scan c0)
                  (map (fun c => (c, category_total scan c)) cats'))
        as [Hin Hmax].
      { eapply linear_on_incl; [|exact Hlin].
        intros v Hv.
        change (In v (map snd (map (fun c => (c, category_total scan c))
                                   (c0 :: cats')))) in Hv.
        rewrite map_map in Hv.
        apply in_map_iff in Hv. destruct Hv as (c & Hv & Hc).
        simpl in Hv. subst v. apply in_map. now apply Hcats. }
      rewrite Hbest in Hin, Hmax.
      change (In (category, total)
                 (map (fun c => (c, category_total scan c)) (c0 :: cats'))) in Hin.
      apply in_map_iff in Hin. destruct Hin as (c & Hc & Hcin).
      injection Hc as Hc1 Hc2. subst c total.
      split; [now apply Hcats|]. split; [reflexivity|].
      intros other Hother. apply Hcats in Hother.
      apply (Hmax (other, category_total scan other)).
      change (In (other, category_total scan other)
                 (map (fun c => (c, category_total scan c)) (c0 :: cats'))).
      apply in_map_iff. now exists other.
Qed.

(** ** Month total *)

Lemma get_month_total_spec (d : db) (user_id : Z) (month : string) :
  let total :=
    total_of (map e_amount
                  (order_by_date_id (filter (in_month user_id month) (expenses d)))) in
  ((real_truthy total = false -> total = real_zero) ->
   get_month_total user_id month d = Ok total d)
  /\ ((forall e, In e (expenses d) -> in_month user_id month e = false) ->
      get_month_total user_id month d = Ok real_zero d).
Proof.
  intros total. rewrite get_month_total_sum. fold total. split.
  - intros H. destruct (real_truthy total); [reflexivity|].
    now rewrite H.
  - intros H. unfold total. rewrite filter_none by assumption. simpl.
    unfold total_of. simpl. now destruct (real_truthy real_zero).
Qed.

(** * Further properties *)

(** ** The tables after a call *)

(** [expenses] after a call: as before, one row more, the rows not hit,
    or the rows with the one hit rewritten. *)
Lemma after_expenses_shape (c : call) (d : db) :
  (expenses (after c d) = expenses d /\ expenses_seq (after c d) = expenses_seq d)
  \/ (exists u dt cat a n,
        let id := next_rowid (map e_id (expenses d)) (expenses_seq d) in
        c = AddExpense u dt cat a n /\ check_amount a = true
        /\ expenses (after c d) = expenses d ++ [mk_expense id u dt cat a n]
        /\ expenses_seq (after c d) = id)
  \/ (exists u i,
        c = DeleteExpense u i
        /\ expenses (after c d) = filter (fun e => negb (owned_by u i e)) (expenses d)
        /\ expenses_seq (after c d) = expenses_seq d)
  \/ (exists u i dt cat a n,
        c = UpdateExpense u i dt cat a n /\ check_amount a = true
        /\ expenses (after c d)
           = map (fun e => if owned_by u i e
                           then mk_expense (e_id e) (e_user_id e) dt cat a n
                           else e) (expenses d)
        /\ expenses_seq (after c d) = expenses_seq d).
Proof.
  destruct c; simpl.
  - left. destruct (create_user_frame username password salt created_at d)
      as (-> & -> & _). auto.
  - unfold committed, add_expense, insert_expense. rewrite note_or_empty.
    destruct (check_amount amount) eqn:E; simpl; [|auto].
    right. left. exists user_id, date, category, amount, note. auto.
  - right. right. left. exists user_id, expense_id. auto.
  - unfold committed, update_expense.
    destruct (existsb (owned_by user_id expense_id) (expenses d)) eqn:Ex;
      destruct (check_amount amount) eqn:E; simpl.
    + right. right. right. exists user_id, expense_id, date, category, amount, note.
      auto.
    + auto.
    + right. right. right. exists user_id, expense_id, date, category, amount, note.
      auto.
    + left. split; [|reflexivity]. apply map_fixed.
      intros e He.
      destruct (owned_by user_id expense_id e) eqn:Eo; [|reflexivity].
      assert (existsb (owned_by user_id expense_id) (expenses d) = true);
        [|congruence].
      apply existsb_exists. now exists e.
  - unfold committed, set_budget. destruct (check_amount amount); simpl; auto.
Qed.

(** [users] after a call: as before, or one row more, with a new
    identifier and a username that is new, trimmed and not empty. *)
Lemma after_users_shape (c : call) (d : db) :
  (users (after c d) = users d /\ users_seq (after c d) = users_seq d)
  \/ (exists username password salt created_at,
        let id := next_rowid (map u_id (users d)) (users_seq d) in
        c = CreateUser username password salt created_at
        /\ Py.strip username <> ""
        /\ ~ In (Py.strip username) (map u_username (users d))
        /\ users (after c d)
           = users d ++ [mk_user id (Py.strip username)
                                 (_hash_password password salt) salt created_at]
        /\ users_seq (after c d) = id).
Proof.
  destruct c; simpl.
  - unfold committed, create_user, bind, ret, select_user_by_username, insert_user.
    destruct (Py.truthy (Py.strip username)) eqn:Eu; simpl; [|auto].
    destruct (Py.truthy password) eqn:Ep; simpl; [|auto].
    destruct (find _ (users d)) eqn:Ef; simpl; [auto|].
    destruct (existsb _ (users d)) eqn:Ex; simpl; [auto|].
    right. exists username, password, salt, created_at.
    split; [reflexivity|]. split; [|split; [|auto]].
    + intros H. rewrite H in Eu. discriminate.
    + intros Hin. apply in_map_iff in Hin. destruct Hin as (u & Hu & Hin).
      apply (find_none _ _ Ef) in Hin. simpl in Hin.
      rewrite Hu, String.eqb_refl in Hin. discriminate.
  - unfold committed, add_expense, insert_expense.
    destruct (check_amount amount); simpl; auto.
  - auto.
  - unfold committed, update_expense.
    destruct (existsb _ (expenses d) && negb (check_amount amount)); simpl; auto.
  - unfold committed, set_budget. destruct (check_amount amount); simpl; auto.
Qed.

Lemma after_budgets (c : call) (d : db) :
  budgets (after c d)
  = match c with
    | SetBudget u m a =>
        if check_amount a then upsert u m a (budgets d) else budgets d
    | _ => budgets d
    end.
Proof.
  destruct c; simpl.
  - now destruct (create_user_frame username password salt created_at d)
      as (_ & _ & ->).
  - unfold committed, add_expense, insert_expense.
    destruct (check_amount amount); reflexivity.
  - reflexivity.
  - unfold committed, update_expense.
    destruct (existsb _ (expenses d) && negb (check_amount amount)); reflexivity.
  - now rewrite set_budget_upsert.
Qed.

Lemma NoDup_snoc {A} (l : list A) (x : A) :
  NoDup l -> ~ In x l -> NoDup (l ++ [x]).
Proof.
  intros Hl Hx. eapply Permutation_NoDup; [apply Permutation_cons_append|].
  now constructor.
Qed.

Lemma next_rowid_positive ids seq : 1 <= next_rowid ids seq.
Proof.
  unfold next_rowid.
  assert (0 <= max_rowid ids) by (induction ids; simpl; lia).
  lia.
Qed.

(** ** The keys of the schema hold whatever is called *)

Lemma keys_ok_after (c : call) (d : db) : keys_ok d -> keys_ok (after c d).
Proof.
  intros (He & Hei & Hu & Hui & Hn & Hb).
  unfold keys_ok.
  assert (Hexp : NoDup (map e_id (expenses (after c d)))
                 /\ forall e, In e (expenses (after c d)) ->
                              1 <= e_id e <= expenses_seq (after c d)).
  { destruct (after_expenses_shape c d)
      as [[-> ->]|[(u & dt & cat & a & n & _ & _ & -> & ->)
         |[(u & i & _ & -> & ->)|(u & i & dt & cat & a & n & _ & _ & -> & ->)]]].
    - auto.
    - split.
      + rewrite map_app. simpl. apply NoDup_snoc; [assumption|].
        intros Hin. apply (next_rowid_fresh _ (expenses_seq d)) in Hin. lia.
      + intros e Hin. apply in_app_or in Hin. destruct Hin as [Hin|[<-|[]]].
        * specialize (Hei e Hin).
          pose proof (next_rowid_above_seq (map e_id (expenses d)) (expenses_seq d)).
          lia.
        * simpl.
          pose proof (next_rowid_positive (map e_id (expenses d)) (expenses_seq d)).
          lia.
    - split.
      + now apply keys_distinct_in_filter.
      + intros e Hin. apply filter_In in Hin. apply Hei. tauto.
    - split.
      + rewrite map_map. erewrite map_ext; [exact He|].
        intros e. now destruct (owned_by u i e).
      + intros e Hin. apply in_map_iff in Hin. destruct Hin as (e0 & <- & Hin).
        specialize (Hei e0 Hin). now destruct (owned_by u i e0). }
  assert (Husers : NoDup (map u_id (users (after c d)))
                   /\ (forall u, In u (users (after c d)) ->
                                 1 <= u_id u <= users_seq (after c d))
                   /\ NoDup (map u_username (users (after c d)))).
  { destruct (after_users_shape c d)
      as [[-> ->]|(un & pw & salt & ts & _ & _ & Hnew & -> & ->)].
    - auto.
    - split; [|split].
      + rewrite map_app. simpl. apply NoDup_snoc; [assumption|].
        intros Hin. apply (next_rowid_fresh _ (users_seq d)) in Hin. lia.
      + intros u Hin. apply in_app_or in Hin. destruct Hin as [Hin|[<-|[]]].
        * specialize (Hui u Hin).
          pose proof (next_rowid_above_seq (map u_id (users d)) (users_seq d)).
          lia.
        * simpl.
          pose proof (next_rowid_positive (map u_id (users d)) (users_seq d)).
          lia.
      + rewrite map_app. simpl. now apply NoDup_snoc. }
  destruct Hexp as [H1 H2]. destruct Husers as (H3 & H4 & H5).
  repeat (split; [assumption|]).
  now apply (budgets_pk_after c d).
Qed.

(** X1. The keys of the schema are kept by every call: along any history
    the expense identifiers stay distinct, positive and at most the
    sequence value of the table, so do the user identifiers, no two users
    share a username and no user and month have two budget rows. *)
Theorem keys_ok_after_all (cs : list call) (d : db) :
  keys_ok d -> keys_ok (after_all cs d).
Proof.
  revert d. induction cs as [|c cs IH]; simpl; intros d H; [assumption|].
  apply IH. now apply keys_ok_after.
Qed.

(** ** The CHECK constraints hold whatever is called *)

Lemma amounts_ok_after (c : call) (d : db) : amounts_ok d -> amounts_ok (after c d).
Proof.
  intros [He Hb]. split.
  - destruct (after_expenses_shape c d)
      as [[-> _]|[(u & dt & cat & a & n & _ & Hc & -> & _)
         |[(u & i & _ & -> & _)|(u & i & dt & cat & a & n & _ & Hc & -> & _)]]].
    + assumption.
    + intros e Hin. apply in_app_or in Hin. destruct Hin as [Hin|[<-|[]]]; auto.
    + intros e Hin. apply filter_In in Hin. apply He. tauto.
    + intros e Hin. apply in_map_iff in Hin. destruct Hin as (e0 & <- & Hin).
      destruct (owned_by u i e0); auto.
  - rewrite after_budgets. destruct c; try assumption.
    destruct (check_amount amount) eqn:Hc; [|assumption].
    unfold upsert. destruct (existsb _ (budgets d)).
    + intros b Hin. apply in_map_iff in Hin. destruct Hin as (b0 & <- & Hin).
      destruct (budget_key user_id month b0); auto.
    + intros b Hin. apply in_app_or in Hin. destruct Hin as [Hin|[<-|[]]]; auto.
Qed.

(** X2. No call stores an amount that [CHECK(amount >= 0)] refuses: with
    every stored expense and budget amount accepted by the check, the same
    holds after any history of calls, whatever amounts they are given. *)
Theorem amounts_ok_after_all (cs : list call) (d : db) :
  amounts_ok d -> amounts_ok (after_all cs d).
Proof.
  revert d. induction cs as [|c cs IH]; simpl; intros d H; [assumption|].
  apply IH. now apply amounts_ok_after.
Qed.

(** ** Trimming *)

Lemma lstrip_clean (s : string) :
  match Py.lstrip s with
  | EmptyString => True
  | String c _ => Py.isspace c = false
  end.
Proof.
  induction s as [|c s IH]; simpl; [exact I|].
  destruct (Py.isspace c) eqn:E; [exact IH|exact E].
Qed.

Lemma rstrip_keeps_head (c : ascii) (s : string) :
  Py.isspace c = false -> exists s', Py.rstrip (String c s) = String c s'.
Proof.
  intros E. simpl. destruct (Py.rstrip s).
  - rewrite E. now exists EmptyString.
  - eexists. reflexivity.
Qed.

Lemma rstrip_idempotent (s : string) : Py.rstrip (Py.rstrip s) = Py.rstrip s.
Proof.
  induction s as [|c s IH]; [reflexivity|].
  simpl. destruct (Py.rstrip s) as [|c' r] eqn:Er.
  - destruct (Py.isspace c) eqn:E; [reflexivity|].
    simpl. now rewrite E.
  - change (Py.rstrip (String c (String c' r))) with
      (match Py.rstrip (String c' r) with
       | EmptyString => if Py.isspace c then EmptyString else String c EmptyString
       | r0 => String c r0
       end).
    now rewrite IH.
Qed.

(** [s.strip().strip() == s.strip()] *)
Lemma strip_idempotent (s : string) : Py.strip (Py.strip s) = Py.strip s.
Proof.
  unfold Py.strip. pose proof (lstrip_clean s) as Hc.
  destruct (Py.lstrip s) as [|c t]; [reflexivity|].
  destruct (rstrip_keeps_head c t Hc) as (t' & Ht).
  rewrite Ht. simpl Py.lstrip. rewrite Hc. rewrite <- Ht.
  apply rstrip_idempotent.
Qed.

(** ** Usernames *)

Lemma usernames_trimmed_after (c : call) (d : db) :
  usernames_trimmed d -> usernames_trimmed (after c d).
Proof.
  intros H.
  destruct (after_users_shape c d)
    as [[Hu _]|(un & pw & salt & ts & _ & Hne & _ & Hu & _)];
    unfold usernames_trimmed; rewrite Hu; [assumption|].
  intros u Hin. apply in_app_or in Hin. destruct Hin as [Hin|[<-|[]]]; [auto|].
  simpl. split; [assumption|apply strip_idempotent].
Qed.

(** X3. Usernames are stored trimmed: along any history every stored
    username is not empty and has no white space at either end, so that
    trimming it changes nothing. *)
Theorem usernames_trimmed_after_all (cs : list call) (d : db) :
  usernames_trimmed d -> usernames_trimmed (after_all cs d).
Proof.
  revert d. induction cs as [|c cs IH]; simpl; intros d H; [assumption|].
  apply IH. now apply usernames_trimmed_after.
Qed.

(** X9. White space around a username does not count: [create_user] and
    [authenticate_user] do on a username what they do on any username
    that trims to the same string, and so on the trimmed username itself,
    which is what the sign-up form passes. *)
Theorem username_white_space
    (username username' password salt created_at : string) (d : db) :
  (Py.strip username' = Py.strip username ->
   create_user username' password salt created_at d
   = create_user username password salt created_at d
   /\ authenticate_user username' password d = authenticate_user username password d)
  /\ create_user (Py.strip username) password salt created_at d
     = create_user username password salt created_at d
  /\ authenticate_user (Py.strip username) password d
     = authenticate_user username password d.
Proof.
  assert (H : forall u', Py.strip u' = Py.strip username ->
    create_user u' password salt created_at d
    = create_user username password salt created_at d
    /\ authenticate_user u' password d = authenticate_user username password d).
  { intros u' E. unfold create_user, authenticate_user. now rewrite E. }
  split; [apply H|]. apply H. apply strip_idempotent.
Qed.

(** ** Looking a user up *)

Lemma create_user_id username password salt created_at d id d1 :
  create_user username password salt created_at d = Ok (Some id) d1 ->
  id = next_rowid (map u_id (users d)) (users_seq d).
Proof.
  unfold create_user, bind, ret, select_user_by_username, insert_user.
  destruct (negb (Py.truthy (Py.strip username)) || negb (Py.truthy password));
    [discriminate|].
  destruct (find _ (users d)); [discriminate|].
  destruct (existsb _ (users d)); [discriminate|].
  intros H. inversion H. reflexivity.
Qed.

Lemma create_user_found_by_id username password salt created_at d id d1 :
  create_user username password salt created_at d = Ok (Some id) d1 ->
  find (fun u => u_id u =? id) (users d1)
  = Some (mk_user id (Py.strip username) (_hash_password password salt)
                  salt created_at).
Proof.
  intros H. pose proof (create_user_id _ _ _ _ _ _ _ H) as Hid.
  apply create_user_inv in H. destruct H as [_ ->]. simpl.
  rewrite find_app_none.
  - simpl. now rewrite Z.eqb_refl.
  - destruct (find (fun u => u_id u =? id) (users d)) as [u|] eqn:Ef;
      [|reflexivity].
    apply find_some in Ef. destruct Ef as [Hin Heq].
    apply Z.eqb_eq in Heq. apply (in_map u_id) in Hin.
    apply (next_rowid_fresh _ (users_seq d)) in Hin. lia.
Qed.

(** X4. A user created is found by identifier: once [create_user] has
    returned an identifier, [get_user_by_id] on it returns, after any
    further calls, that identifier with the trimmed username and the
    creation time stored. *)
Theorem get_user_by_id_round_trip
    (d : db) (username password salt created_at : string) (id : Z) (d1 : db) :
  create_user username password salt created_at d = Ok (Some id) d1 ->
  forall later : list call,
    get_user_by_id id (after_all later d1)
    = Ok (Some (id, Py.strip username, created_at)) (after_all later d1).
Proof.
  intros H later. unfold get_user_by_id.
  rewrite (after_all_users_found _ later d1 _
             (create_user_found_by_id _ _ _ _ _ _ _ H)).
  reflexivity.
Qed.

(** ** Identifiers grow *)

Lemma after_all_expenses_seq (cs : list call) (d : db) :
  expenses_seq d <= expenses_seq (after_all cs d).
Proof.
  revert d. induction cs as [|c cs IH]; simpl; intros d; [lia|].
  pose proof (after_expenses_seq c d). specialize (IH (after c d)). lia.
Qed.

(** X5. Expense identifiers only grow: the identifier [add_expense]
    returns is positive, and every later [add_expense], for any user and
    whatever was deleted in between, returns a larger one. *)
Theorem expense_ids_increase
    (d : db) (user_id : Z) (date category : string) (amount : real) (note : string)
    (id : Z) (d1 : db) :
  add_expense user_id date category amount note d = Ok id d1 ->
  1 <= id
  /\ forall (later : list call) user_id' date' category' amount' note' id' d2,
       add_expense user_id' date' category' amount' note' (after_all later d1)
       = Ok id' d2 ->
       id < id'.
Proof.
  intros H. apply add_expense_inv in H. destruct H as (_ & Hid & Hd1). split.
  - rewrite Hid. apply next_rowid_positive.
  - intros later u' dt' c' a' n' id' d2 H'.
    apply add_expense_inv in H'. destruct H' as (_ & Hid' & _).
    pose proof (after_all_expenses_seq later d1) as Hseq.
    rewrite Hd1 in Hseq at 1. simpl in Hseq.
    pose proof (next_rowid_above_seq (map e_id (expenses (after_all later d1)))
                  (expenses_seq (after_all later d1))).
    lia.
Qed.

(** ** A call for one user leaves the others' data alone *)

Lemma filter_filter_imp {A} (f g : A -> bool) (l : list A) :
  (forall x, f x = true -> g x = true) -> filter f (filter g l) = filter f l.
Proof.
  intros H. induction l as [|x l IH]; simpl; [reflexivity|].
  destruct (g x) eqn:Eg; simpl.
  - now rewrite IH.
  - destruct (f x) eqn:Ef; [|assumption].
    rewrite (H x Ef) in Eg. discriminate.
Qed.

Lemma find_filter_imp {A} (f g : A -> bool) (l : list A) :
  (forall x, f x = true -> g x = true) -> find f (filter g l) = find f l.
Proof.
  intros H. rewrite !find_filter. now rewrite filter_filter_imp.
Qed.

(** The rows of a user. *)
Lemma own_rows_after (c : call) (d : db) (B : Z) :
  call_user c <> Some B ->
  filter (fun e => e_user_id e =? B) (expenses (after c d))
  = filter (fun e => e_user_id e =? B) (expenses d)
  /\ filter (fun b => b_user_id b =? B) (budgets (after c d))
     = filter (fun b => b_user_id b =? B) (budgets d).
Proof.
  intros Hc. split.
  - destruct (after_expenses_shape c d)
      as [[-> _]|[(u & dt & cat & a & n & -> & _ & -> & _)
         |[(u & i & -> & -> & _)|(u & i & dt & cat & a & n & -> & _ & -> & _)]]];
      simpl in Hc.
    + reflexivity.
    + rewrite filter_app. simpl.
      destruct (u =? B) eqn:E; [apply Z.eqb_eq in E; congruence|].
      apply app_nil_r.
    + induction (expenses d) as [|e l IH]; simpl; [reflexivity|].
      destruct (owned_by u i e) eqn:Eo; simpl.
      * apply owned_by_true in Eo. destruct Eo as [Eu _].
        destruct (e_user_id e =? B) eqn:E; [|assumption].
        apply Z.eqb_eq in E. congruence.
      * now rewrite IH.
    + induction (expenses d) as [|e l IH]; simpl; [reflexivity|].
      destruct (owned_by u i e) eqn:Eo; simpl.
      * apply owned_by_true in Eo. destruct Eo as [Eu _].
        destruct (e_user_id e =? B) eqn:E;
          [apply Z.eqb_eq in E; congruence|assumption].
      * now rewrite IH.
  - rewrite after_budgets. destruct c; try reflexivity. simpl in Hc.
    destruct (check_amount amount); [|reflexivity].
    assert (Hne : (user_id =? B) = false)
      by (apply Z.eqb_neq; congruence).
    unfold upsert. destruct (existsb _ (budgets d)).
    + induction (budgets d) as [|b l IH]; simpl; [reflexivity|].
      destruct (budget_key user_id month b) eqn:Ek; simpl.
      * apply budget_key_true in Ek. destruct Ek as [Eu _].
        rewrite Eu, Hne. assumption.
      * now rewrite IH.
    + rewrite filter_app. simpl. rewrite Hne. apply app_nil_r.
Qed.

Lemma own_rows_after_all (cs : list call) (d : db) (B : Z) :
  Forall (fun c => call_user c <> Some B) cs ->
  filter (fun e => e_user_id e =? B) (expenses (after_all cs d))
  = filter (fun e => e_user_id e =? B) (expenses d)
  /\ filter (fun b => b_user_id b =? B) (budgets (after_all cs d))
     = filter (fun b => b_user_id b =? B) (budgets d).
Proof.
  intros H. revert d. induction H as [|c cs Hc _ IH]; intros d; simpl; [auto|].
  destruct (IH (after c d)) as [-> ->]. now apply own_rows_after.
Qed.

Lemma where_own_rows (B : Z) (query : list cond) (rows : list expense_row) :
  where_ (UserIdEq B :: query) (filter (fun e => e_user_id e =? B) rows)
  = where_ (UserIdEq B :: query) rows.
Proof.
  unfold where_. apply filter_filter_imp.
  intros e H. simpl in H. apply andb_true_iff in H. tauto.
Qed.

(** What the reads for [user_id] return depends on the rows of [user_id]
    alone. *)
Lemma reads_of_own_rows (B : Z) (d d' : db) :
  filter (fun e => e_user_id e =? B) (expenses d')
  = filter (fun e => e_user_id e =? B) (expenses d) ->
  filter (fun b => b_user_id b =? B) (budgets d')
  = filter (fun b => b_user_id b =? B) (budgets d) ->
  (forall start_date end_date categories,
      returned (get_expenses_df B start_date end_date categories) d'
      = returned (get_expenses_df B start_date end_date categories) d)
  /\ (forall month,
        returned (get_month_total B month) d' = returned (get_month_total B month) d)
  /\ (forall start_date end_date,
        returned (get_top_category B start_date end_date) d'
        = returned (get_top_category B start_date end_date) d)
  /\ (forall month,
        returned (get_budget B month) d' = returned (get_budget B month) d).
Proof.
  intros He Hb.
  assert (Hw : forall query,
    where_ (UserIdEq B :: query) (expenses d')
    = where_ (UserIdEq B :: query) (expenses d)).
  { intros query. rewrite <- (where_own_rows B query (expenses d')).
    rewrite <- (where_own_rows B query (expenses d)). now rewrite He. }
  split; [|split; [|split]].
  - intros sd ed cats. rewrite get_expenses_df_query.
    unfold returned, read_sql_query. now rewrite Hw.
  - intros month. unfold returned, get_month_total. now rewrite Hw.
  - intros sd ed. unfold returned, get_top_category.
    destruct sd as [[|? ?]|], ed as [[|? ?]|]; simpl; now rewrite Hw.
  - intros month. unfold returned, get_budget.
    rewrite <- (find_filter_imp (budget_key B month)
                  (fun b => b_user_id b =? B) (budgets d')).
    + rewrite <- (find_filter_imp (budget_key B month)
                    (fun b => b_user_id b =? B) (budgets d)).
      * now rewrite Hb.
      * intros b H. apply budget_key_true in H. apply Z.eqb_eq. tauto.
    + intros b H. apply budget_key_true in H. apply Z.eqb_eq. tauto.
Qed.

(** X6. Calls made for other users, and [create_user], change nothing a
    user reads: after any history without a call for user [B], the expense
    query for [B] with any filters, the month totals, the top category
    and the budgets of [B] are what they were before. *)
Theorem other_users_calls_change_nothing (cs : list call) (d : db) (B : Z) :
  Forall (fun c => call_user c <> Some B) cs ->
  (forall start_date end_date categories,
      returned (get_expenses_df B start_date end_date categories) (after_all cs d)
      = returned (get_expenses_df B start_date end_date categories) d)
  /\ (forall month,
        returned (get_month_total B month) (after_all cs d)
        = returned (get_month_total B month) d)
  /\ (forall start_date end_date,
        returned (get_top_category B start_date end_date) (after_all cs d)
        = returned (get_top_category B start_date end_date) d)
  /\ (forall month,
        returned (get_budget B month) (after_all cs d)
        = returned (get_budget B month) d).
Proof.
  intros H. destruct (own_rows_after_all cs d B H) as [He Hb].
  now apply reads_of_own_rows.
Qed.

(** ** Deleting *)

Lemma NoDup_map_injective {A B} (f : A -> B) (l : list A) (x y : A) :
  NoDup (map f l) -> In x l -> In y l -> f x = f y -> x = y.
Proof.
  induction l as [|a l IH]; simpl; intros Hnd Hx Hy Hf; [contradiction|].
  inversion Hnd as [|? ? Ha Hl]; subst.
  destruct Hx as [->|Hx], Hy as [->|Hy]; auto.
  - elim Ha. rewrite Hf. now apply in_map.
  - elim Ha. rewrite <- Hf. now apply in_map.
Qed.

Lemma retired_after (id : Z) (c : call) (d : db) :
  retired id d -> retired id (after c d).
Proof.
  intros [Hseq Hnone]. split.
  - pose proof (after_expenses_seq c d). lia.
  - intros e' He' Hid.
    destruct (after_expense_origin c d e' He') as [(e & He & Hi & _)|Hnew].
    + apply (Hnone e He). congruence.
    + lia.
Qed.

Lemma retired_after_all (id : Z) (cs : list call) (d : db) :
  retired id d -> retired id (after_all cs d).
Proof.
  revert d. induction cs as [|c cs IH]; simpl; intros d H; [assumption|].
  apply IH. now apply retired_after.
Qed.

(** X7. Deleting an own expense removes that row and no other: with the
    keys of the schema holding, [delete_expense] on an expense the user
    owns leaves every other row of the table as it was, the unfiltered
    query of the user loses exactly the row of that identifier, and no
    expense carries the identifier ever again, whatever is called later. *)
Theorem delete_expense_removes
    (d : db) (user_id expense_id : Z) (e : expense_row) :
  keys_ok d ->
  In e (expenses d) -> e_id e = expense_id -> e_user_id e = user_id ->
  exists d1 rows0 rows1,
    delete_expense user_id expense_id d = Ok tt d1
    /\ (forall e', In e' (expenses d1) <-> In e' (expenses d) /\ e' <> e)
    /\ get_expenses_df user_id None None None d = Ok rows0 d
    /\ get_expenses_df user_id None None None d1 = Ok rows1 d1
    /\ (forall r, In r rows1 <-> In r rows0 /\ ID r <> expense_id)
    /\ forall (later : list call) e',
         In e' (expenses (after_all later d1)) -> e_id e' <> expense_id.
Proof.
  intros (Hpk & Hbound & _) He Hid Hu.
  set (d1 := mk_db (users d) (users_seq d)
                   (filter (fun e => negb (owned_by user_id expense_id e))
                           (expenses d))
                   (expenses_seq d) (budgets d)).
  assert (Hrows : forall e', In e' (expenses d1) <-> In e' (expenses d) /\ e' <> e).
  { intros e'. simpl. rewrite filter_In. split.
    - intros [Hin Ho]. split; [assumption|]. intros ->.
      assert (owned_by user_id expense_id e = true)
        by (apply owned_by_true; auto).
      rewrite H in Ho. discriminate.
    - intros [Hin Hne]. split; [assumption|].
      destruct (owned_by user_id expense_id e') eqn:Eo; [|reflexivity].
      apply owned_by_true in Eo. destruct Eo as [_ Ei]. elim Hne.
      apply (NoDup_map_injective e_id (expenses d)); auto. congruence. }
  destruct (get_expenses_df_all user_id d) as (rows0 & Hrun0 & Hrows0).
  destruct (get_expenses_df_all user_id d1) as (rows1 & Hrun1 & Hrows1).
  exists d1, rows0, rows1.
  split; [reflexivity|]. split; [exact Hrows|].
  split; [assumption|]. split; [assumption|]. split.
  - intros r. rewrite Hrows0, Hrows1. split.
    + intros (e' & He' & Hu' & ->). apply Hrows in He'. destruct He' as [Hin Hne].
      split; [now exists e'|].
      simpl. intros Hi. apply Hne.
      apply (NoDup_map_injective e_id (expenses d)); auto. congruence.
    + intros [(e' & He' & Hu' & ->) Hne]. exists e'.
      split; [|auto]. apply Hrows. split; [assumption|].
      intros ->. now apply Hne.
  - intros later. apply (retired_after_all expense_id later d1). split.
    + simpl. specialize (Hbound e He). lia.
    + intros e' He' Hi. apply Hrows in He'. destruct He' as [Hin Hne].
      apply Hne. apply (NoDup_map_injective e_id (expenses d)); auto. congruence.
Qed.

(** ** How calls on one expense compose *)

Lemma owned_by_rewritten user_id expense_id date category amount note e :
  owned_by user_id expense_id
    (if owned_by user_id expense_id e
     then mk_expense (e_id e) (e_user_id e) date category amount note
     else e)
  = owned_by user_id expense_id e.
Proof. now destruct (owned_by user_id expense_id e) eqn:E. Qed.

Lemma others_after_rewrite user_id expense_id date category amount note
    (l : list expense_row) :
  filter (fun e => negb (owned_by user_id expense_id e))
         (map (fun e => if owned_by user_id expense_id e
                        then mk_expense (e_id e) (e_user_id e)
                                        date category amount note
                        else e) l)
  = filter (fun e => negb (owned_by user_id expense_id e)) l.
Proof.
  induction l as [|e l IH]; [reflexivity|].
  cbn [map filter]. rewrite owned_by_rewritten.
  destruct (owned_by user_id expense_id e) eqn:Eo; cbn [negb].
  - exact IH.
  - f_equal. exact IH.
Qed.

Lemma update_expense_after user_id expense_id date category amount note d :
  expenses (after (UpdateExpense user_id expense_id date category amount note) d)
  = (if existsb (owned_by user_id expense_id) (expenses d)
        && negb (check_amount amount)
     then expenses d
     else map (fun e => if owned_by user_id expense_id e
                        then mk_expense (e_id e) (e_user_id e)
                                        date category amount note
                        else e) (expenses d))
  /\ users (after (UpdateExpense user_id expense_id date category amount note) d)
     = users d
  /\ users_seq (after (UpdateExpense user_id expense_id date category amount note) d)
     = users_seq d
  /\ expenses_seq
       (after (UpdateExpense user_id expense_id date category amount note) d)
     = expenses_seq d
  /\ budgets (after (UpdateExpense user_id expense_id date category amount note) d)
     = budgets d.
Proof.
  simpl. unfold committed, update_expense.
  destruct (existsb _ (expenses d) && negb (check_amount amount)); simpl; auto.
Qed.

Lemma db_ext (d d' : db) :
  users d = users d' -> users_seq d = users_seq d' ->
  expenses d = expenses d' -> expenses_seq d = expenses_seq d' ->
  budgets d = budgets d' -> d = d'.
Proof. destruct d, d'; simpl; intros; subst; reflexivity. Qed.

(** X8. Calls on one expense compose as one expects: deleting twice is
    deleting once; an update followed by an update is the second update
    alone, and an update followed by the deletion is the deletion alone,
    the amounts of the updates being such as the check accepts (a refused
    update leaves its connection open with the write lock held). *)
Theorem expense_calls_compose
    (d : db) (user_id expense_id : Z)
    (date1 category1 : string) (amount1 : real) (note1 : string)
    (date2 category2 : string) (amount2 : real) (note2 : string) :
  after (DeleteExpense user_id expense_id) (after (DeleteExpense user_id expense_id) d)
  = after (DeleteExpense user_id expense_id) d
  /\ (check_amount amount1 = true -> check_amount amount2 = true ->
      after (UpdateExpense user_id expense_id date2 category2 amount2 note2)
            (after (UpdateExpense user_id expense_id date1 category1 amount1 note1) d)
      = after (UpdateExpense user_id expense_id date2 category2 amount2 note2) d)
  /\ (check_amount amount1 = true ->
      after (DeleteExpense user_id expense_id)
            (after (UpdateExpense user_id expense_id date1 category1 amount1 note1) d)
      = after (DeleteExpense user_id expense_id) d).
Proof.
  split; [|split].
  - simpl. unfold committed, delete_expense. simpl. f_equal.
    apply filter_filter_imp. auto.
  - intros _ Hc.
    destruct (update_expense_after user_id expense_id date1 category1 amount1
                note1 d) as (He1 & Hu1 & Hus1 & Hes1 & Hb1).
    set (d1 := after (UpdateExpense user_id expense_id date1 category1 amount1
                        note1) d) in *.
    destruct (update_expense_after user_id expense_id date2 category2 amount2
                note2 d1) as (He2 & Hu2 & Hus2 & Hes2 & Hb2).
    destruct (update_expense_after user_id expense_id date2 category2 amount2
                note2 d) as (He3 & Hu3 & Hus3 & Hes3 & Hb3).
    apply db_ext; try congruence.
    rewrite He2, He3, Hc, !andb_false_r, He1.
    destruct (existsb _ (expenses d) && negb (check_amount amount1));
      [reflexivity|].
    rewrite map_map. apply map_ext. intros e.
    destruct (owned_by user_id expense_id e) eqn:Eo; simpl.
    + apply owned_by_true in Eo. destruct Eo as [Eu Ei].
      assert (E : owned_by user_id expense_id
                    (mk_expense (e_id e) (e_user_id e) date1 category1 amount1 note1)
                  = true) by (apply owned_by_true; auto).
      now rewrite E.
    + now rewrite Eo.
  - intros _.
    destruct (update_expense_after user_id expense_id date1 category1 amount1
                note1 d) as (He1 & Hu1 & Hus1 & Hes1 & Hb1).
    set (d1 := after (UpdateExpense user_id expense_id date1 category1 amount1
                        note1) d) in *.
    apply db_ext; simpl; try assumption.
    rewrite He1.
    destruct (existsb _ (expenses d) && negb (check_amount amount1));
      [reflexivity|].
    apply others_after_rewrite.
Qed.

(** ** The month total after an expense is added *)

Lemma total_of_snoc (xs : list real) (a : real) :
  total_of (xs ++ [a]) = real_add (total_of xs) a.
Proof. unfold total_of. now rewrite fold_left_app. Qed.

Lemma get_month_total_returned (d : db) (user_id : Z) (month : string) :
  returned (get_month_total user_id month) d
  = Some (or_zero
            (total_of (map e_amount
                           (order_by_date_id
                              (filter (in_month user_id month) (expenses d)))))).
Proof. unfold returned. now rewrite get_month_total_sum. Qed.

(** Of two rows with different identifiers one is before the other. *)
Lemma date_id_leb_strict (a b : expense_row) :
  e_id a <> e_id b -> date_id_leb a b = negb (date_id_leb b a).
Proof.
  intros Hne. unfold date_id_leb.
  rewrite (String.compare_antisym (e_date a) (e_date b)).
  destruct (String.compare (e_date b) (e_date a)); simpl; try reflexivity.
  destruct (Z.leb_spec (e_id a) (e_id b)), (Z.leb_spec (e_id b) (e_id a));
    simpl; try reflexivity; lia.
Qed.

Lemma insert_row_comm (a b : expense_row) (l : list expense_row) :
  e_id a <> e_id b ->
  insert_row a (insert_row b l) = insert_row b (insert_row a l).
Proof.
  intros Hne. pose proof (date_id_leb_strict a b Hne) as Hab.
  induction l as [|y l IH]; simpl.
  - rewrite Hab. now destruct (date_id_leb b a).
  - destruct (date_id_leb b y) eqn:Eby, (date_id_leb a y) eqn:Eay; simpl.
    + rewrite Hab. destruct (date_id_leb b a); simpl; now rewrite ?Eby, ?Eay.
    + rewrite Eby, Eay.
      destruct (date_id_leb a b) eqn:Eab; [|reflexivity].
      now rewrite (date_id_leb_trans a b y Eab Eby) in Eay.
    + rewrite Eby, Eay.
      destruct (date_id_leb b a) eqn:Eba; [|reflexivity].
      now rewrite (date_id_leb_trans b a y Eba Eay) in Eby.
    + rewrite Eby, Eay. now rewrite IH.
Qed.

(** Sorting the table with one row more, of a new identifier, puts the
    row in its place among the others sorted. *)
Lemma order_by_date_id_snoc (rows : list expense_row) (e : expense_row) :
  (forall x, In x rows -> e_id x <> e_id e) ->
  order_by_date_id (rows ++ [e]) = insert_row e (order_by_date_id rows).
Proof.
  unfold order_by_date_id.
  induction rows as [|x rows IH]; intros H; simpl; [reflexivity|].
  rewrite IH by (intros y Hy; apply H; now right).
  apply insert_row_comm. apply H. now left.
Qed.

(** A row dated no earlier than the others, and of a larger identifier,
    comes last. *)
Lemma insert_row_last (e : expense_row) (l : list expense_row) :
  (forall x, In x l -> String.leb (e_date x) (e_date e) = true /\ e_id x < e_id e) ->
  insert_row e l = l ++ [e].
Proof.
  induction l as [|x l IH]; intros H; simpl; [reflexivity|].
  destruct (H x (or_introl eq_refl)) as [Hdate Hid].
  assert (E : date_id_leb e x = false).
  { unfold String.leb in Hdate. unfold date_id_leb.
    rewrite (String.compare_antisym (e_date e) (e_date x)).
    revert Hdate.
    destruct (String.compare (e_date x) (e_date e)); simpl; intros Hdate;
      [apply Z.leb_gt; lia|reflexivity|discriminate]. }
  rewrite E. f_equal. apply IH. intros y Hy. apply H. now right.
Qed.

(** The rows of a month, in the order their amounts are added, with one
    row more in the table. *)
Lemma month_rows_snoc (reader : Z) (month : string) (rows : list expense_row)
    (e : expense_row) :
  (forall x, In x rows -> e_id x < e_id e) ->
  order_by_date_id (filter (in_month reader month) (rows ++ [e]))
  = if in_month reader month e
    then insert_row e (order_by_date_id (filter (in_month reader month) rows))
    else order_by_date_id (filter (in_month reader month) rows).
Proof.
  intros H. rewrite filter_app. simpl. destruct (in_month reader month e).
  - apply order_by_date_id_snoc. intros x Hx. apply filter_In in Hx.
    pose proof (H x (proj1 Hx)). lia.
  - now rewrite app_nil_r.
Qed.

(** The identifier [add_expense] gives is above those of the table. *)
Lemma add_expense_above user_id date category amount note d id d1 :
  add_expense user_id date category amount note d = Ok id d1 ->
  forall x, In x (expenses d) -> e_id x < id.
Proof.
  intros H x Hx. apply add_expense_inv in H. destruct H as (_ & -> & _).
  apply next_rowid_fresh. now apply in_map.
Qed.

(** X10. An expense added counts in the month total of its owner for the
    months whose range of dates holds its date, and in no other. For every
    other user or month [get_month_total] returns after [add_expense] what
    it returned before. For that user and such a month it returns the sum
    of the amounts before with the new amount added at the place of its
    date, after the amounts of that date; when no expense of the month is
    dated later, this is the sum before plus the amount. *)
Theorem month_total_after_add
    (d : db) (user_id : Z) (date category : string) (amount : real) (note : string)
    (id : Z) (d1 : db) :
  add_expense user_id date category amount note d = Ok id d1 ->
  forall (reader : Z) (month : string),
    let rows := order_by_date_id (filter (in_month reader month) (expenses d)) in
    let before := total_of (map e_amount rows) in
    let counts :=
      (user_id =? reader)
      && String.leb (String.append month "-01") date
      && String.leb date (String.append month "-31") in
    let added := mk_expense id user_id date category amount note in
    returned (get_month_total reader month) d = Some (or_zero before)
    /\ (counts = false ->
        returned (get_month_total reader month) d1 = Some (or_zero before))
    /\ (counts = true ->
        returned (get_month_total reader month) d1
        = Some (or_zero (total_of (map e_amount (insert_row added rows))))
        /\ ((forall e, In e rows -> String.leb (e_date e) date = true) ->
            returned (get_month_total reader month) d1
            = Some (or_zero (real_add before amount)))).
Proof.
  intros H reader month rows before counts added.
  pose proof (add_expense_above _ _ _ _ _ _ _ _ H) as Habove.
  assert (Hrows :
    order_by_date_id (filter (in_month reader month) (expenses d1))
    = if counts then insert_row added rows else rows).
  { apply add_expense_inv in H. destruct H as (_ & _ & ->).
    cbn [expenses]. rewrite month_rows_snoc by exact Habove. reflexivity. }
  rewrite !get_month_total_returned, Hrows.
  split; [reflexivity|]. split.
  - intros Hc. now rewrite Hc.
  - intros Hc. rewrite Hc. split; [reflexivity|]. intros Hlast.
    rewrite insert_row_last.
    + rewrite map_app. simpl. now rewrite total_of_snoc.
    + intros x Hx. split; [now apply Hlast|].
      apply Habove. unfold rows in Hx.
      apply (proj1 (order_by_date_id_In _ _)) in Hx.
      apply filter_In in Hx. tauto.
Qed.

(** ** Budgets stay until set again *)

Lemma find_map_same_test {A} (f : A -> bool) (g : A -> A) (l : list A) :
  (forall x, f (g x) = f x) ->
  (forall x, f x = true -> g x = x) ->
  find f (map g l) = find f l.
Proof.
  intros Hf Hg. induction l as [|x l IH]; simpl; [reflexivity|].
  rewrite Hf. destruct (f x) eqn:E; [|assumption].
  now rewrite (Hg x E).
Qed.

Lemma find_other_budget user_id month u m a (l : list budget_row) :
  (u =? user_id) && String.eqb m month = false ->
  find (budget_key user_id month) (upsert u m a l)
  = find (budget_key user_id month) l.
Proof.
  intros Hne. unfold upsert. destruct (existsb (budget_key u m) l).
  - apply find_map_same_test.
    + intros b. now destruct (budget_key u m b).
    + intros b Hb. destruct (budget_key u m b) eqn:Ek; [|reflexivity].
      apply budget_key_true in Hb. apply budget_key_true in Ek.
      destruct Hb as [<- <-]. destruct Ek as [<- <-].
      rewrite Z.eqb_refl, String.eqb_refl in Hne. discriminate.
  - destruct (find (budget_key user_id month) l) as [b|] eqn:Ef.
    + now apply find_app_some.
    + rewrite find_app_none by assumption. simpl.
      unfold budget_key. simpl. now rewrite Hne.
Qed.

(** X11. A budget is changed by [set_budget] for its user and month and by
    nothing else: after any history without such a call, [get_budget]
    returns what it returned before, the amount last set or [None] when
    none was. *)
Theorem budget_stays (cs : list call) (d : db) (user_id : Z) (month : string) :
  forallb (fun c => negb (sets_budget user_id month c)) cs = true ->
  returned (get_budget user_id month) (after_all cs d)
  = returned (get_budget user_id month) d.
Proof.
  revert d. induction cs as [|c cs IH]; simpl; intros d H; [reflexivity|].
  apply andb_true_iff in H. destruct H as [Hc Hcs].
  rewrite (IH (after c d) Hcs).
  unfold returned, get_budget. rewrite after_budgets.
  destruct c; try reflexivity.
  destruct (check_amount amount); [|reflexivity].
  simpl in Hc. apply negb_true_iff in Hc.
  now rewrite find_other_budget.
Qed.

(** ** Who is authenticated *)

Lemma find_by_key {A} (key : A -> Z) (l : list A) (x : A) :
  NoDup (map key l) -> In x l -> find (fun y => key y =? key x) l = Some x.
Proof.
  intros Hnd Hin.
  destruct (find (fun y => key y =? key x) l) as [y|] eqn:Ef.
  - apply find_some in Ef. destruct Ef as [Hy Hk]. apply Z.eqb_eq in Hk.
    f_equal. now apply (NoDup_map_injective key l).
  - apply (find_none _ _ Ef) in Hin. rewrite Z.eqb_refl in Hin. discriminate.
Qed.

(** X12. Who is authenticated. [authenticate_user] returns [None] for a
    username that no user has, the empty one included; and with distinct
    user identifiers, an identifier it returns is that of a stored user
    who has the trimmed username and whose stored hash is the digest of
    the password with the stored salt, the user [get_user_by_id] then
    returns. *)
Theorem authenticate_user_sound (d : db) (username password : string) :
  ((forall u, In u (users d) -> u_username u <> Py.strip username) ->
   authenticate_user username password d = Ok None d)
  /\ (NoDup (map u_id (users d)) ->
      forall id d',
        authenticate_user username password d = Ok (Some id) d' ->
        d' = d
        /\ exists u,
             In u (users d) /\ u_id u = id
             /\ u_username u = Py.strip username
             /\ u_password_hash u = _hash_password password (u_salt u)
             /\ get_user_by_id id d
                = Ok (Some (id, Py.strip username, u_created_at u)) d).
Proof.
  split.
  - intros H. unfold authenticate_user, bind, ret, select_user_by_username.
    destruct (find _ (users d)) as [u|] eqn:Ef; [|reflexivity].
    apply find_some in Ef. destruct Ef as [Hin Hn].
    apply String.eqb_eq in Hn. now elim (H u Hin).
  - intros Hnd id d'.
    unfold authenticate_user, bind, ret, select_user_by_username.
    destruct (find _ (users d)) as [u|] eqn:Ef; [|discriminate].
    apply find_some in Ef. destruct Ef as [Hin Hn]. apply String.eqb_eq in Hn.
    destruct (String.eqb _ (u_password_hash u)) eqn:Eh; [|discriminate].
    intros H. injection H as Hi Hd. subst id d'. split; [reflexivity|].
    exists u. apply String.eqb_eq in Eh. repeat split; auto.
    unfold get_user_by_id. rewrite (find_by_key u_id (users d) u Hnd Hin).
    simpl. now rewrite Hn.
Qed.

(** ** Dates as strings *)

Lemma append_assoc (a b c : string) :
  String.append (String.append a b) c = String.append a (String.append b c).
Proof. induction a as [|x a IH]; simpl; [reflexivity|]. now rewrite IH. Qed.

Lemma length_append (a b : string) :
  String.length (String.append a b) = (String.length a + String.length b)%nat.
Proof. induction a as [|x a IH]; simpl; [reflexivity|]. now rewrite IH. Qed.

Lemma ascii_compare_refl (c : ascii) : Ascii.compare c c = Eq.
Proof. unfold Ascii.compare. apply N.compare_refl. Qed.

(** Strings with a part in front of the same length compare by that part,
    then by the rest. *)
Lemma compare_append (p q a b : string) :
  String.length p = String.length q ->
  String.compare (String.append p a) (String.append q b)
  = match String.compare p q with
    | Eq => String.compare a b
    | c => c
    end.
Proof.
  revert q. induction p as [|x p IH]; intros [|y q] H; simpl in *;
    try discriminate; [reflexivity|].
  destruct (Ascii.compare x y); try reflexivity.
  apply IH. congruence.
Qed.

Lemma compare_append_same (p a b : string) :
  String.compare (String.append p a) (String.append p b) = String.compare a b.
Proof.
  rewrite compare_append by reflexivity. now rewrite string_compare_refl.
Qed.

Lemma length_fixed (w : nat) (n : Z) : String.length (Datetime.fixed w n) = w.
Proof.
  revert n. induction w as [|w IH]; intros n; simpl; [reflexivity|].
  rewrite length_append, IH. simpl. lia.
Qed.

Lemma digit_compare (a b : Z) :
  0 <= a <= 9 -> 0 <= b <= 9 ->
  Ascii.compare (Datetime.digit a) (Datetime.digit b) = (a ?= b).
Proof.
  intros Ha Hb. unfold Ascii.compare, Datetime.digit.
  rewrite !N_ascii_embedding by lia.
  rewrite Z2N.inj_compare by lia.
  apply Z.add_compare_mono_l.
Qed.

(** Numbers written on the same number of digits compare as strings the
    way they compare as numbers. *)
Lemma fixed_compare (w : nat) (x y : Z) :
  0 <= x < 10 ^ Z.of_nat w -> 0 <= y < 10 ^ Z.of_nat w ->
  String.compare (Datetime.fixed w x) (Datetime.fixed w y) = (x ?= y).
Proof.
  revert x y. induction w as [|w IH]; intros x y Hx Hy.
  - simpl in *. assert (x = 0) by lia. assert (y = 0) by lia. now subst.
  - rewrite Nat2Z.inj_succ, Z.pow_succ_r in Hx, Hy by lia.
    pose proof (Z.div_mod x 10 ltac:(lia)) as Ex.
    pose proof (Z.div_mod y 10 ltac:(lia)) as Ey.
    pose proof (Z.mod_pos_bound x 10 ltac:(lia)) as Bx.
    pose proof (Z.mod_pos_bound y 10 ltac:(lia)) as By.
    simpl Datetime.fixed.
    rewrite compare_append by (now rewrite !length_fixed).
    rewrite IH by lia. simpl.
    rewrite digit_compare by lia.
    destruct (Z.compare_spec (x / 10) (y / 10)) as [E|E|E];
      destruct (Z.compare_spec (x mod 10) (y mod 10)) as [F|F|F];
      symmetry;
      first [ apply Z.compare_eq_iff; lia
            | apply Z.compare_lt_iff; lia
            | apply Z.compare_gt_iff; lia ].
Qed.

Lemma to_date_str_month_str (pad_year : bool) (d : Datetime.date) :
  to_date_str pad_year d
  = String.append (month_str pad_year d)
                  (String.append "-" (Datetime.fixed 2 (Datetime.day d))).
Proof.
  unfold to_date_str, month_str, Datetime.strftime_Y_m_d, Datetime.strftime_Y_m.
  now rewrite !append_assoc.
Qed.

(** A day of a month lies in the range of dates that [get_month_total]
    takes for the month. *)
Lemma date_in_month_range (pad_year : bool) (d : Datetime.date) :
  1 <= Datetime.day d <= 31 ->
  String.leb (String.append (month_str pad_year d) "-01") (to_date_str pad_year d)
  = true
  /\ String.leb (to_date_str pad_year d) (String.append (month_str pad_year d) "-31")
     = true.
Proof.
  intros Hd. rewrite to_date_str_month_str. unfold String.leb.
  change "-01" with (String.append "-" (Datetime.fixed 2 1)).
  change "-31" with (String.append "-" (Datetime.fixed 2 31)).
  rewrite !compare_append_same.
  rewrite !fixed_compare by (simpl; lia).
  split.
  - destruct (Z.compare_spec 1 (Datetime.day d)); try reflexivity. lia.
  - destruct (Z.compare_spec (Datetime.day d) 31); try reflexivity. lia.
Qed.

(** X13. The month of a date holds the date: an expense added under
    [to_date_str] of a date (day 1 to 31) is counted by [get_month_total]
    for [month_str] of that date, which is the total the budget alert of
    the add form compares with the budget. The total is the sum of the
    amounts of the month with the new amount added at the place of its
    date; when no expense of the month is dated later, it is the sum
    before plus the amount. *)
Theorem added_expense_counts_in_its_month
    (d : db) (pad_year : bool) (on : Datetime.date)
    (user_id : Z) (category : string) (amount : real) (note : string)
    (id : Z) (d1 : db) :
  1 <= Datetime.day on <= 31 ->
  add_expense user_id (to_date_str pad_year on) category amount note d = Ok id d1 ->
  let rows :=
    order_by_date_id
      (filter (in_month user_id (month_str pad_year on)) (expenses d)) in
  let added := mk_expense id user_id (to_date_str pad_year on) category amount note in
  in_month user_id (month_str pad_year on) added = true
  /\ returned (get_month_total user_id (month_str pad_year on)) d1
     = Some (or_zero (total_of (map e_amount (insert_row added rows))))
  /\ ((forall e, In e rows ->
         String.leb (e_date e) (to_date_str pad_year on) = true) ->
      returned (get_month_total user_id (month_str pad_year on)) d1
      = Some (or_zero (real_add (total_of (map e_amount rows)) amount))).
Proof.
  intros Hday Hadd rows added.
  assert (Hin : in_month user_id (month_str pad_year on) added = true).
  { unfold in_month, added. cbn [e_user_id e_date]. rewrite Z.eqb_refl.
    now destruct (date_in_month_range pad_year on Hday) as [-> ->]. }
  pose proof (add_expense_above _ _ _ _ _ _ _ _ Hadd) as Habove.
  assert (Hrows :
    order_by_date_id
      (filter (in_month user_id (month_str pad_year on)) (expenses d1))
    = insert_row added rows).
  { apply add_expense_inv in Hadd. destruct Hadd as (_ & _ & ->).
    cbn [expenses]. rewrite month_rows_snoc by exact Habove.
    fold added. now rewrite Hin. }
  rewrite get_month_total_returned, Hrows.
  split; [exact Hin|]. split; [reflexivity|].
  intros Hlast. rewrite insert_row_last.
  - rewrite map_app. simpl. now rewrite total_of_snoc.
  - intros x Hx. split; [now apply Hlast|].
    apply Habove. unfold rows in Hx.
    apply (proj1 (order_by_date_id_In _ _)) in Hx. apply filter_In in Hx. tauto.
Qed.

(** X14. Dates written by [to_date_str] compare as strings the way the
    dates compare: for years of four digits, months and days of at most
    two, the string order that the date filters of the queries use is the
    order of the dates. *)
Theorem to_date_str_order (pad_year : bool) (a b : Datetime.date) :
  1000 <= Datetime.year a <= 9999 -> 1000 <= Datetime.year b <= 9999 ->
  0 <= Datetime.month a <= 99 -> 0 <= Datetime.month b <= 99 ->
  0 <= Datetime.day a <= 99 -> 0 <= Datetime.day b <= 99 ->
  String.compare (to_date_str pad_year a) (to_date_str pad_year b)
  = Datetime.compare a b
  /\ (String.leb (to_date_str pad_year a) (to_date_str pad_year b) = true
      <-> Datetime.compare a b <> Gt).
Proof.
  intros Hya Hyb Hma Hmb Hda Hdb.
  assert (E : String.compare (to_date_str pad_year a) (to_date_str pad_year b)
              = Datetime.compare a b).
  { unfold to_date_str, Datetime.strftime_Y_m_d, Datetime.format_Y, Datetime.compare.
    replace (1000 <=? Datetime.year a) with true by (symmetry; apply Z.leb_le; lia).
    replace (1000 <=? Datetime.year b) with true by (symmetry; apply Z.leb_le; lia).
    rewrite orb_true_r.
    rewrite compare_append by (now rewrite !length_fixed).
    rewrite fixed_compare by (simpl; lia).
    destruct (Datetime.year a ?= Datetime.year b); try reflexivity.
    rewrite compare_append_same.
    rewrite compare_append by (now rewrite !length_fixed).
    rewrite fixed_compare by (simpl; lia).
    destruct (Datetime.month a ?= Datetime.month b); try reflexivity.
    rewrite compare_append_same.
    apply fixed_compare; simpl; lia. }
  split; [exact E|].
  unfold String.leb. rewrite E.
  destruct (Datetime.compare a b); split; congruence.
Qed.

(** ** Signing up and logging in *)

Lemma create_user_id_positive username password salt created_at d id d1 :
  create_user username password salt created_at d = Ok (Some id) d1 -> 1 <= id.
Proof.
  intros H. rewrite (create_user_id _ _ _ _ _ _ _ H). apply next_rowid_positive.
Qed.

Lemma create_user_none username password salt created_at d d1 :
  create_user username password salt created_at d = Ok None d1 -> d1 = d.
Proof.
  unfold create_user, bind, ret, select_user_by_username, insert_user.
  destruct (negb (Py.truthy (Py.strip username)) || negb (Py.truthy password)).
  - intros H. now inversion H.
  - destruct (find _ (users d)).
    + intros H. now inversion H.
    + destruct (existsb _ (users d)); [discriminate|]. intros H. inversion H.
Qed.

Lemma create_user_returns username password salt created_at d :
  exists r d1, create_user username password salt created_at d = Ok r d1.
Proof.
  unfold create_user, bind, ret, select_user_by_username, insert_user.
  destruct (negb (Py.truthy (Py.strip username)) || negb (Py.truthy password));
    [eauto|].
  destruct (find _ (users d)) eqn:Ef; [eauto|].
  destruct (existsb _ (users d)) eqn:Ex; [|eauto].
  apply existsb_exists in Ex. destruct Ex as (u & Hin & Hu).
  now rewrite (find_none _ _ Ef u Hin) in Hu.
Qed.

(** X15. The sign-up form tells the truth, and an account it creates can
    log in: the form never raises; when it says the account was created,
    the login form with the same username and password, after any further
    calls, puts that user's positive identifier and the trimmed username
    in the session; and whenever it shows any other message the database
    is as it was. *)
Theorem signup_then_login
    (d : db) (uname pwd pwd2 salt created_at : string) :
  exists message d1,
    signup uname pwd pwd2 salt created_at d = Ok message d1
    /\ (message <> AccountCreated -> d1 = d)
    /\ (message = AccountCreated ->
        pwd2 = pwd
        /\ exists id,
             1 <= id
             /\ forall later : list call,
                  login uname pwd (after_all later d1)
                  = Ok (Some (id, Py.strip uname)) (after_all later d1)).
Proof.
  unfold signup, bind, ret.
  destruct (negb (Py.truthy uname) || negb (Py.truthy pwd)).
  { exists ProvideBoth, d. split; [reflexivity|]. split; [reflexivity|discriminate]. }
  destruct (String.eqb pwd pwd2) eqn:Ep; simpl.
  2:{ exists PasswordsDiffer, d. split; [reflexivity|].
      split; [reflexivity|discriminate]. }
  apply String.eqb_eq in Ep.
  destruct (create_user_returns (Py.strip uname) pwd salt created_at d)
    as (r & d1 & Hc).
  rewrite Hc. destruct r as [id|]; simpl.
  - pose proof (create_user_id_positive _ _ _ _ _ _ _ Hc) as Hpos.
    replace (id =? 0) with false by (symmetry; apply Z.eqb_neq; lia). simpl.
    exists AccountCreated, d1. split; [reflexivity|]. split; [congruence|].
    intros _. split; [now symmetry|]. exists id. split; [assumption|].
    intros later.
    pose proof (after_all_users_found _ later d1 _
                  (create_user_found _ _ _ _ _ _ _ Hc)) as Hfind.
    rewrite strip_idempotent in Hfind.
    unfold login, authenticate_user, bind, ret, select_user_by_username.
    rewrite Hfind. simpl. rewrite String.eqb_refl. simpl.
    replace (id =? 0) with false by (symmetry; apply Z.eqb_neq; lia). reflexivity.
  - exists ExistsOrInvalid, d1. split; [reflexivity|].
    split; [|discriminate]. intros _. now apply create_user_none in Hc.
Qed.

(** ** What no call does *)

(** X17. No call changes or removes a user: after any history the table
    of users is the one before followed by the users created since, so a
    stored username, hash, salt and creation time never change. *)
Theorem users_only_grow (cs : list call) (d : db) :
  exists created, users (after_all cs d) = users d ++ created.
Proof.
  revert d. induction cs as [|c cs IH]; intros d; simpl.
  - exists []. now rewrite app_nil_r.
  - destruct (IH (after c d)) as (more & ->).
    destruct (after_users c d) as [->|(row & ->)].
    + now exists more.
    + exists (row :: more). now rewrite <- app_assoc.
Qed.

(** X18. An update moves no expense: whatever its arguments,
    [update_expense] leaves the identifier and the owner of every row, and
    the order of the rows, as they were, so no expense changes hands and
    none appears or disappears. *)
Theorem update_expense_keeps_rows
    (d : db) (user_id expense_id : Z) (date category : string) (amount : real)
    (note : string) :
  map (fun e => (e_id e, e_user_id e))
      (expenses (after (UpdateExpense user_id expense_id date category amount note) d))
  = map (fun e => (e_id e, e_user_id e)) (expenses d).
Proof.
  destruct (update_expense_after user_id expense_id date category amount note d)
    as (-> & _).
  destruct (existsb _ (expenses d) && negb (check_amount amount)); [reflexivity|].
  rewrite map_map. apply map_ext. intros e.
  now destruct (owned_by user_id expense_id e).
Qed.

End Storage.

Arguments Ok {real A} a d.
Arguments Raise {real A} e.
Arguments mk_expense {real} e_id e_user_id e_date e_category e_amount e_note.
Arguments mk_df_row {real} ID Date Category Amount Note.
Arguments mk_budget {real} b_user_id b_month b_amount.
Arguments users {real} d.
Arguments expenses {real} d.
Arguments budgets {real} d.
Arguments e_id {real} e.
Arguments e_user_id {real} e.
Arguments e_date {real} e.
Arguments e_category {real} e.
Arguments e_amount {real} e.
Arguments ID {real} d.
Arguments empty_db {real}.
Arguments select_columns {real} e.
Arguments in_month {real} user_id month e.
Arguments in_range {real} user_id start_date end_date e.
Arguments budget_key {real} user_id month b.
Arguments AddExpense {real} user_id date category amount note.
Arguments DeleteExpense {real} user_id expense_id.
Arguments CreateUser {real} username password salt created_at.
Arguments SetBudget {real} user_id month amount.
Arguments order_by_date_id {real} rows.
Arguments order_by_id {real} rows.
Arguments insert_row {real} r l.
Arguments visited {real} start_date end_date rows.
Arguments execute {real A} parameters statement d.

(** * The running system: binary64 amounts *)

(** Python's [bool(x)] on a float: [x != 0.0]. *)
Definition float_truthy (x : float) : bool := negb (PrimFloat.eqb x 0).

(** The expenses of the specification's aggregation example, added for one
    user to a new database. *)
Definition january (user_id : Z) : list (call float) :=
  [ AddExpense user_id "2024-01-05" "Food" 100%float "";
    AddExpense user_id "2024-01-20" "Food" 50%float "";
    AddExpense user_id "2024-01-10" "Travel" 30%float "" ].

Definition january_db (user_id : Z) : db float :=
  after_all float 0%float PrimFloat.leb (january user_id) empty_db.

Lemma january_expenses (user_id : Z) :
  expenses (january_db user_id)
  = [ mk_expense 1 user_id "2024-01-05" "Food" 100%float "";
      mk_expense 2 user_id "2024-01-20" "Food" 50%float "";
      mk_expense 3 user_id "2024-01-10" "Travel" 30%float "" ].
Proof. reflexivity. Qed.

(** C6. Month total. [get_month_total] returns the sum of the amounts of
    the user's expenses whose date lies between the month followed by
    [-01] and the month followed by [-31], both included, as strings, the
    amounts added in the order of the dates and, within a date, of the
    identifiers (with Python's [or 0.0] a sum that is false as a number
    must be the zero for this), and zero when there is no such expense;
    for the three expenses of the example the total for 2024-01 is 180. *)
Theorem month_total_correct :
  (forall (real : Type) (real_zero : real) (real_add : real -> real -> real)
          (real_truthy : real -> bool) (d : db real) (user_id : Z) (month : string),
      let total :=
        total_of real real_zero real_add
          (map e_amount
               (order_by_date_id (filter (in_month user_id month) (expenses d)))) in
      ((real_truthy total = false -> total = real_zero) ->
       get_month_total real real_zero real_add real_truthy user_id month d
       = Ok total d)
      /\ ((forall e, In e (expenses d) -> in_month user_id month e = false) ->
          get_month_total real real_zero real_add real_truthy user_id month d
          = Ok real_zero d))
  /\ (forall user_id,
        get_month_total float 0%float PrimFloat.add float_truthy
                        user_id "2024-01" (january_db user_id)
        = Ok 180%float (january_db user_id)).
Proof.
  split.
  - intros. apply get_month_total_spec.
  - intros user_id.
    assert (E : total_of float 0%float PrimFloat.add
                  (map e_amount
                       (order_by_date_id
                          (filter (in_month user_id "2024-01")
                                  (expenses (january_db user_id)))))
                = 180%float).
    { rewrite january_expenses. unfold in_month. simpl.
      rewrite Z.eqb_refl. reflexivity. }
    pose proof (proj1 (get_month_total_spec float 0%float PrimFloat.add
                         float_truthy (january_db user_id) user_id "2024-01"))
      as H.
    cbv zeta in H. rewrite E in H. apply H.
    intros Hf. vm_compute in Hf. discriminate Hf.
Qed.

(** ** The claim on the query fails on an empty category list *)

(** C4, as stated: with the empty category list given, no expense is a
    member of it, and the query returns the three expenses all the same. *)
Lemma query_as_stated_counterexample :
  ~ query_as_stated float (january_db 1) 1 None None (Some []).
Proof.
  intros (rows & Hrun & Hiff & _).
  vm_compute in Hrun. inversion Hrun as [Hrows]. clear Hrun.
  destruct (proj1 (Hiff (mk_df_row 1 "2024-01-05" "Food" 100%float "")))
    as (e & _ & _ & _ & _ & _ & Hcat).
  - rewrite <- Hrows. simpl. now left.
  - exact (Hcat [] eq_refl).
Qed.

(** ** Instances *)

Definition lunch_db : db float :=
  after float 0%float PrimFloat.leb (AddExpense 1 "2024-01-05" "Food" 100%float "lunch")
        empty_db.

Lemma cross_user_isolation_witness :
  1 <> 2
  /\ add_expense float 0%float PrimFloat.leb 1 "2024-01-05" "Food" 100%float "lunch"
                 empty_db
     = Ok 1 lunch_db
  /\ delete_expense float 2 1 lunch_db = Ok tt lunch_db.
Proof.
  assert (Hneq : 1 <> 2) by lia.
  assert (Hadd : add_expense float 0%float PrimFloat.leb 1 "2024-01-05" "Food"
                             100%float "lunch" empty_db
                 = Ok 1 lunch_db) by reflexivity.
  split; [exact Hneq|]. split; [exact Hadd|].
  exact (proj1 (proj2 (proj2
           (cross_user_isolation float 0%float PrimFloat.add PrimFloat.leb
              float_truthy empty_db 1 2 "2024-01-05" "Food" 100%float "lunch"
              1 lunch_db Hneq Hadd) []))).
Defined.

Definition alice_salt : string := "000102030405060708090a0b0c0d0e0f".
Definition alice_created_at : string := "2024-01-01T09:30:00+00:00".

Definition alice_db : db float :=
  after float 0%float PrimFloat.leb
        (CreateUser "  alice " "s3cret" alice_salt alice_created_at) empty_db.

(** ** The words of the digest *)

Lemma w32_word32 (x : Z) : word32 (SHA256.w32 x).
Proof.
  unfold word32, SHA256.w32.
  change 0xffffffff with (Z.ones 32).
  rewrite Z.land_ones by lia.
  change (2 ^ 32) with 4294967296.
  apply Z.mod_pos_bound. lia.
Qed.

Lemma round_length (st : list Z) (kw : Z * Z) :
  List.length st = 8%nat -> List.length (SHA256.round st kw) = 8%nat.
Proof.
  intros H.
  do 9 (destruct st as [|? st]; try discriminate H).
  reflexivity.
Qed.

Lemma rounds_length (kws : list (Z * Z)) (st : list Z) :
  List.length st = 8%nat -> List.length (fold_left SHA256.round kws st) = 8%nat.
Proof.
  revert st. induction kws as [|kw kws IH]; intros st H; [assumption|].
  simpl. apply IH. now apply round_length.
Qed.

Lemma compress_ok (h block : list Z) : state_ok h -> state_ok (SHA256.compress h block).
Proof.
  intros [Hlen _]. unfold SHA256.compress. split.
  - rewrite length_map, length_combine, rounds_length by assumption.
    rewrite Hlen. reflexivity.
  - apply Forall_forall. intros x Hx. apply in_map_iff in Hx.
    destruct Hx as (p & <- & _). apply w32_word32.
Qed.

Lemma blocks_ok (fuel : nat) (h ws : list Z) :
  state_ok h -> state_ok (SHA256.blocks fuel h ws).
Proof.
  revert h ws. induction fuel as [|fuel IH]; intros h ws H; [assumption|].
  destruct ws as [|w ws]; [assumption|].
  cbn [SHA256.blocks]. apply IH. now apply compress_ok.
Qed.

Lemma H0_ok : state_ok SHA256.H0.
Proof.
  split; [reflexivity|].
  unfold SHA256.H0, word32. repeat constructor; lia.
Qed.


Lemma create_user_failures_witness :
  create_user float "   " "s3cret" alice_salt alice_created_at empty_db
  = Ok None empty_db
  /\ create_user float "  alice " "other" alice_salt alice_created_at alice_db
     = Ok None alice_db.
Proof.
  split.
  - apply (proj1 (create_user_failures float 0%float PrimFloat.leb empty_db
                    "   " "s3cret" alice_salt alice_created_at)).
    left. reflexivity.
  - assert (Hc : create_user float "  alice " "s3cret" alice_salt alice_created_at
                             empty_db
                 = Ok (Some 1) alice_db) by (vm_compute; reflexivity).
    exact (proj2 (proj2 (create_user_failures float 0%float PrimFloat.leb empty_db
                           "  alice " "s3cret" alice_salt alice_created_at)
                        1 alice_db Hc)
                 [] "other" alice_salt alice_created_at).
Defined.

Lemma query_filters_and_order_witness :
  exists rows,
    get_expenses_df float 1 (Some "2024-01-06") None (Some ["Food"]) (january_db 1)
    = Ok rows (january_db 1)
    /\ NoDup (map ID rows).
Proof.
  destruct (query_filters_and_order float 0%float PrimFloat.add PrimFloat.leb
              float_truthy (january_db 1) 1 (Some "2024-01-06") None
              (Some ["Food"]))
    as (rows & Hrun & _ & _ & Hnd).
  exists rows. split; [exact Hrun|]. apply Hnd.
  unfold expenses_pk. rewrite january_expenses. simpl.
  constructor; [simpl; lia|]. constructor; [simpl; lia|].
  constructor; [simpl; lia|]. constructor.
Defined.

Lemma add_update_round_trip_witness :
  check_amount float 0%float PrimFloat.leb 100%float = true
  /\ exists id d1 rows,
       add_expense float 0%float PrimFloat.leb 1 "2024-01-05" "Food" 100%float
                   "lunch" empty_db
       = Ok id d1
       /\ get_expenses_df float 1 None None None d1 = Ok rows d1
       /\ In (mk_df_row id "2024-01-05" "Food" 100%float "lunch") rows.
Proof.
  split; [reflexivity|].
  destruct (proj1 (add_update_round_trip float 0%float PrimFloat.add PrimFloat.leb
                     float_truthy empty_db 1 "2024-01-05" "Food" 100%float
                     "lunch" eq_refl))
    as (id & d1 & rows & H1 & H2 & H3 & _).
  exists id, d1, rows. auto.
Defined.

Lemma month_total_correct_witness :
  get_month_total float 0%float PrimFloat.add float_truthy 1 "2024-02"
                  (january_db 1)
  = Ok 0%float (january_db 1).
Proof.
  apply (proj2 (proj1 month_total_correct float 0%float PrimFloat.add
                      float_truthy (january_db 1) 1 "2024-02")).
  intros e He. rewrite january_expenses in He. simpl in He.
  destruct He as [<-|[<-|[<-|[]]]]; reflexivity.
Defined.

Lemma top_category_correct_witness :
  exists result,
    get_top_category float 0%float PrimFloat.add PrimFloat.leb 1
                     (Some "2024-01-01") (Some "") (january_db 1)
    = Ok result (january_db 1)
    /\ (result = None <->
        filter (in_range 1 (Some "2024-01-01") None) (expenses (january_db 1)) = []).
Proof.
  assert (Hlin : linear_on float PrimFloat.leb
                           [150%float; 150%float; 30%float]).
  { split.
    - intros x y Hx Hy. simpl in Hx, Hy.
      destruct Hx as [<-|[<-|[<-|[]]]]; destruct Hy as [<-|[<-|[<-|[]]]];
        ((left; reflexivity) || (right; reflexivity)).
    - intros x y z Hx Hy Hz. simpl in Hx, Hy, Hz.
      destruct Hx as [<-|[<-|[<-|[]]]]; destruct Hy as [<-|[<-|[<-|[]]]];
        destruct Hz as [<-|[<-|[<-|[]]]];
        vm_compute; intros; congruence. }
  destruct (top_category_correct float 0%float PrimFloat.add PrimFloat.leb
              (january_db 1) 1 (Some "2024-01-01") (Some "") Hlin)
    as (result & Hrun & Hnone & _).
  exists result. split; [exact Hrun|exact Hnone].
Defined.

(** ** The claim on the top category fails on an empty date bound *)

(** C7, as stated: with the empty string given as the end of the range no
    expense is dated in the range, and [get_top_category] returns Food
    with 150 all the same. *)
Lemma top_category_as_stated_counterexample :
  ~ top_category_as_stated float 0%float PrimFloat.add PrimFloat.leb
      (january_db 1) 1 None (Some "").
Proof.
  intros (result & Hrun & Hnone & _).
  assert (Hres : result = Some ("Food", 150%float)).
  { vm_compute in Hrun. now inversion Hrun. }
  assert (Hno : result = None) by (apply Hnone; reflexivity).
  congruence.
Qed.

Lemma budget_upsert_witness :
  exists d1 d2,
    set_budget float 0%float PrimFloat.leb 1 "2024-01" 500%float empty_db = Ok tt d1
    /\ set_budget float 0%float PrimFloat.leb 1 "2024-01" 700%float d1 = Ok tt d2
    /\ filter (budget_key 1 "2024-01") (budgets d2) = [mk_budget 1 "2024-01" 700%float]
    /\ get_budget float 1 "2024-01" d2 = Ok (Some 700%float) d2.
Proof.
  assert (Hpk : budgets_pk float empty_db) by constructor.
  exact (proj2 (proj2 (budget_upsert float 0%float PrimFloat.add PrimFloat.leb
                         float_truthy empty_db 1 "2024-01" Hpk))
               500%float 700%float eq_refl eq_refl).
Defined.

Lemma delete_update_silent_noop_witness :
  execute [2; 1] (delete_expense float 2 1) lunch_db = Ok tt lunch_db
  /\ execute [2; 1]
             (update_expense float 0%float PrimFloat.leb 2 1 "2024-02-01" "Rent"
                             9%float "")
             lunch_db
     = Ok tt lunch_db.
Proof.
  assert (H : forall e, In e (expenses lunch_db) -> e_id e = 1 -> e_user_id e <> 2).
  { intros e He _.
    change (In e [mk_expense 1 1 "2024-01-05" "Food" 100%float "lunch"]) in He.
    destruct He as [<-|[]]. simpl. lia. }
  destruct (proj1 (delete_update_silent_noop float 0%float PrimFloat.add
                     PrimFloat.leb float_truthy lunch_db 2 1)
                  eq_refl eq_refl H) as [Hd Hu].
  split; [exact Hd|apply Hu].
Defined.

(** ** The claim on deleting fails on an identifier that is no INTEGER *)

(** C9, as stated: no expense carries the identifier [2 ^ 63], and
    [delete_expense] called with it raises [OverflowError]. *)
Lemma silent_noop_as_stated_counterexample :
  ~ silent_noop_as_stated float 0%float PrimFloat.leb lunch_db 1 (2 ^ 63).
Proof.
  intros H. destruct H as [Hd _].
  - intros e He Hid.
    change (In e [mk_expense 1 1 "2024-01-05" "Food" 100%float "lunch"]) in He.
    destruct He as [<-|[]]. discriminate Hid.
  - vm_compute in Hd. discriminate Hd.
Qed.

(** ** The shape of the stored hash *)

Lemma digest_ok (msg : list Z) : state_ok (SHA256.digest msg).
Proof. unfold SHA256.digest. apply blocks_ok. apply H0_ok. Qed.

Lemma hex_length (n : nat) (x : Z) : String.length (SHA256.hex n x) = n.
Proof. induction n as [|n IH]; simpl; [reflexivity|]. now rewrite IH. Qed.

Lemma hex_digit_char (n : Z) :
  0 <= n < 16 ->
  In (SHA256.hex_digit n) (list_ascii_of_string "0123456789abcdef").
Proof.
  intros H. rewrite <- (Z2Nat.id n) by lia.
  assert (Hk : (Z.to_nat n < 16)%nat) by lia.
  generalize dependent (Z.to_nat n). intros k Hk.
  do 16 (destruct k as [|k]; [simpl; tauto|]).
  lia.
Qed.

Lemma hex_chars (n : nat) (x : Z) (c : ascii) :
  In c (list_ascii_of_string (SHA256.hex n x)) ->
  In c (list_ascii_of_string "0123456789abcdef").
Proof.
  induction n as [|n IH]; [intros []|].
  cbn [SHA256.hex list_ascii_of_string]. intros [<-|H]; [|now apply IH].
  apply hex_digit_char.
  change 15 with (Z.ones 4). rewrite Z.land_ones by lia.
  change (2 ^ 4) with 16. apply Z.mod_pos_bound. lia.
Qed.

Lemma list_ascii_of_append (a b : string) :
  list_ascii_of_string (String.append a b)
  = list_ascii_of_string a ++ list_ascii_of_string b.
Proof. induction a as [|x a IH]; simpl; [reflexivity|]. now rewrite IH. Qed.

(** X16. The stored password hash always has the same shape: whatever the
    password and the salt, [_hash_password] returns 64 characters, each a
    digit or a letter from a to f. *)
Theorem hash_password_shape (password salt : string) :
  String.length (_hash_password password salt) = 64%nat
  /\ forall c, In c (list_ascii_of_string (_hash_password password salt)) ->
               In c (list_ascii_of_string "0123456789abcdef").
Proof.
  unfold _hash_password, SHA256.hexdigest.
  destruct (digest_ok (Py.encode_utf8 (String.append salt password)))
    as [Hlen _].
  generalize dependent (SHA256.digest (Py.encode_utf8 (String.append salt password))).
  intros ws Hlen.
  assert (H : String.length
                (fold_right (fun w s => String.append (SHA256.hex 8 w) s)
                            EmptyString ws)
              = (8 * List.length ws)%nat
              /\ forall c,
                   In c (list_ascii_of_string
                           (fold_right (fun w s => String.append (SHA256.hex 8 w) s)
                                       EmptyString ws)) ->
                   In c (list_ascii_of_string "0123456789abcdef")).
  { clear Hlen. induction ws as [|w ws [IH1 IH2]].
    - split; [reflexivity|intros c []].
    - cbn [fold_right]. split.
      + rewrite length_append, hex_length, IH1. simpl List.length. lia.
      + intros c Hc. rewrite list_ascii_of_append in Hc.
        apply in_app_or in Hc. destruct Hc as [Hc|Hc];
          [now apply (hex_chars 8 w)|now apply IH2]. }
  destruct H as [H1 H2]. split; [|exact H2].
  rewrite H1, Hlen. reflexivity.
Qed.

(** ** Instances of the further properties *)

Arguments UpdateExpense {real} user_id expense_id date category amount note.
Arguments returned {real A} m d.

Lemma empty_db_keys_ok : keys_ok float empty_db.
Proof.
  unfold keys_ok. simpl.
  split; [constructor|]. split; [intros ? []|].
  split; [constructor|]. split; [intros ? []|].
  split; constructor.
Qed.

Lemma january_keys_ok : keys_ok float (january_db 1).
Proof.
  change (keys_ok float
            (after float 0%float PrimFloat.leb
               (AddExpense 1 "2024-01-10" "Travel" 30%float "")
               (after float 0%float PrimFloat.leb
                  (AddExpense 1 "2024-01-20" "Food" 50%float "")
                  (after float 0%float PrimFloat.leb
                     (AddExpense 1 "2024-01-05" "Food" 100%float "") empty_db)))).
  do 3 apply (keys_ok_after float 0%float PrimFloat.add PrimFloat.leb float_truthy).
  exact empty_db_keys_ok.
Qed.

Definition budget_db : db float :=
  after float 0%float PrimFloat.leb (SetBudget 1 "2024-01" 500%float) empty_db.

Lemma keys_ok_after_all_witness :
  keys_ok float empty_db /\ keys_ok float (january_db 1).
Proof.
  assert (H : keys_ok float empty_db).
  { unfold keys_ok. simpl.
    split; [constructor|]. split; [intros ? []|].
    split; [constructor|]. split; [intros ? []|].
    split; constructor. }
  split; [exact H|].
  exact (keys_ok_after_all float 0%float PrimFloat.add PrimFloat.leb float_truthy
           (january 1) empty_db H).
Defined.

Lemma amounts_ok_after_all_witness :
  amounts_ok float 0%float PrimFloat.leb empty_db
  /\ amounts_ok float 0%float PrimFloat.leb
       (after_all float 0%float PrimFloat.leb
          (AddExpense 1 "2024-01-05" "Food" (-5)%float "" :: january 1) empty_db).
Proof.
  assert (H : amounts_ok float 0%float PrimFloat.leb empty_db)
    by (split; intros ? []).
  split; [exact H|].
  exact (amounts_ok_after_all float 0%float PrimFloat.add PrimFloat.leb float_truthy
           (AddExpense 1 "2024-01-05" "Food" (-5)%float "" :: january 1)
           empty_db H).
Defined.

Lemma usernames_trimmed_after_all_witness :
  usernames_trimmed float empty_db /\ usernames_trimmed float alice_db.
Proof.
  assert (H : usernames_trimmed float empty_db) by (intros ? []).
  split; [exact H|].
  exact (usernames_trimmed_after_all float 0%float PrimFloat.leb
           [CreateUser "  alice " "s3cret" alice_salt alice_created_at]
           empty_db H).
Defined.

Lemma get_user_by_id_round_trip_witness :
  create_user float "  alice " "s3cret" alice_salt alice_created_at empty_db
  = Ok (Some 1) alice_db
  /\ get_user_by_id float 1 alice_db
     = Ok (Some (1, "alice", alice_created_at)) alice_db.
Proof.
  assert (Hc : create_user float "  alice " "s3cret" alice_salt alice_created_at
                           empty_db
               = Ok (Some 1) alice_db) by (vm_compute; reflexivity).
  split; [exact Hc|].
  exact (get_user_by_id_round_trip float 0%float PrimFloat.add PrimFloat.leb
           float_truthy empty_db "  alice " "s3cret" alice_salt alice_created_at
           1 alice_db Hc []).
Defined.

Lemma expense_ids_increase_witness :
  add_expense float 0%float PrimFloat.leb 1 "2024-01-05" "Food" 100%float "lunch"
              empty_db
  = Ok 1 lunch_db
  /\ forall id' d2,
       add_expense float 0%float PrimFloat.leb 2 "2024-01-06" "Rent" 900%float ""
                   (after_all float 0%float PrimFloat.leb [DeleteExpense 1 1]
                              lunch_db)
       = Ok id' d2 ->
       1 < id'.
Proof.
  assert (Hadd : add_expense float 0%float PrimFloat.leb 1 "2024-01-05" "Food"
                             100%float "lunch" empty_db
                 = Ok 1 lunch_db) by reflexivity.
  split; [exact Hadd|].
  intros id' d2.
  exact (proj2 (expense_ids_increase float 0%float PrimFloat.leb empty_db 1
                  "2024-01-05" "Food" 100%float "lunch" 1 lunch_db Hadd)
               [DeleteExpense 1 1] 2 "2024-01-06" "Rent" 900%float "" id' d2).
Defined.

Lemma other_users_calls_change_nothing_witness :
  Forall (fun c => call_user float c <> Some 2) (january 1)
  /\ returned (get_month_total float 0%float PrimFloat.add float_truthy 2 "2024-01")
              (january_db 1)
     = returned (get_month_total float 0%float PrimFloat.add float_truthy 2 "2024-01")
                empty_db.
Proof.
  assert (H : Forall (fun c => call_user float c <> Some 2) (january 1))
    by (repeat constructor; simpl; intros E; inversion E).
  split; [exact H|].
  exact (proj1 (proj2 (other_users_calls_change_nothing float 0%float PrimFloat.add
                         PrimFloat.leb float_truthy (january 1) empty_db 2 H))
               "2024-01").
Defined.

Lemma delete_expense_removes_witness :
  exists d1,
    delete_expense float 1 2 (january_db 1) = Ok tt d1
    /\ forall (later : list (call float)) e',
         In e' (expenses (after_all float 0%float PrimFloat.leb later d1)) ->
         e_id e' <> 2.
Proof.
  destruct (delete_expense_removes float 0%float PrimFloat.add PrimFloat.leb
              float_truthy (january_db 1) 1 2
              (mk_expense 2 1 "2024-01-20" "Food" 50%float "")
              january_keys_ok
              (or_intror (or_introl eq_refl)) eq_refl eq_refl)
    as (d1 & rows0 & rows1 & Hrun & _ & _ & _ & _ & Hnever).
  exists d1. split; [exact Hrun|exact Hnever].
Defined.

Lemma expense_calls_compose_witness :
  after float 0%float PrimFloat.leb (DeleteExpense 1 1)
        (after float 0%float PrimFloat.leb (DeleteExpense 1 1) lunch_db)
  = after float 0%float PrimFloat.leb (DeleteExpense 1 1) lunch_db
  /\ after float 0%float PrimFloat.leb
           (UpdateExpense 1 1 "2024-01-07" "Rent" 900%float "")
           (after float 0%float PrimFloat.leb
                  (UpdateExpense 1 1 "2024-01-06" "Travel" 30%float "bus") lunch_db)
     = after float 0%float PrimFloat.leb
             (UpdateExpense 1 1 "2024-01-07" "Rent" 900%float "") lunch_db
  /\ after float 0%float PrimFloat.leb (DeleteExpense 1 1)
           (after float 0%float PrimFloat.leb
                  (UpdateExpense 1 1 "2024-01-06" "Travel" 30%float "bus") lunch_db)
     = after float 0%float PrimFloat.leb (DeleteExpense 1 1) lunch_db.
Proof.
  destruct (expense_calls_compose float 0%float PrimFloat.add PrimFloat.leb
              float_truthy lunch_db 1 1 "2024-01-06" "Travel" 30%float "bus"
              "2024-01-07" "Rent" 900%float "") as (H1 & H2 & H3).
  split; [exact H1|]. split; [exact (H2 eq_refl eq_refl)|exact (H3 eq_refl)].
Defined.

Lemma username_white_space_witness :
  Py.strip " alice" = Py.strip "  alice "
  /\ authenticate_user float " alice" "s3cret" alice_db
     = authenticate_user float "  alice " "s3cret" alice_db.
Proof.
  assert (H : Py.strip " alice" = Py.strip "  alice ") by reflexivity.
  split; [exact H|].
  exact (proj2 (proj1 (username_white_space float "  alice " " alice" "s3cret"
                         alice_salt alice_created_at alice_db) H)).
Defined.

(** Expenses of 0.1 and 0.2 entered with the later date first, and one of
    0.3 added for an earlier date. *)
Definition tenths_db : db float :=
  after_all float 0%float PrimFloat.leb
    [ AddExpense 1 "2024-01-20" "Food" 0x1.999999999999ap-4%float "";
      AddExpense 1 "2024-01-10" "Food" 0x1.999999999999ap-3%float "" ]
    empty_db.

Definition tenths_more_db : db float :=
  after float 0%float PrimFloat.leb
    (AddExpense 1 "2024-01-05" "Food" 0x1.3333333333333p-2%float "") tenths_db.

Lemma month_total_after_add_witness :
  add_expense float 0%float PrimFloat.leb 1 "2024-01-20" "Food" 50%float "dinner"
              lunch_db
  = Ok 2 (after float 0%float PrimFloat.leb
                (AddExpense 1 "2024-01-20" "Food" 50%float "dinner") lunch_db)
  /\ returned (get_month_total float 0%float PrimFloat.add float_truthy 1 "2024-01")
              (after float 0%float PrimFloat.leb
                     (AddExpense 1 "2024-01-20" "Food" 50%float "dinner") lunch_db)
     = Some 150%float
  /\ returned (get_month_total float 0%float PrimFloat.add float_truthy 1 "2024-02")
              (after float 0%float PrimFloat.leb
                     (AddExpense 1 "2024-01-20" "Food" 50%float "dinner") lunch_db)
     = Some 0%float
  /\ returned (get_month_total float 0%float PrimFloat.add float_truthy 1 "2024-01")
              tenths_more_db
     = Some 0x1.3333333333333p-1%float.
Proof.
  assert (Hadd : add_expense float 0%float PrimFloat.leb 1 "2024-01-20" "Food"
                             50%float "dinner" lunch_db
                 = Ok 2 (after float 0%float PrimFloat.leb
                               (AddExpense 1 "2024-01-20" "Food" 50%float "dinner")
                               lunch_db)) by reflexivity.
  assert (Hthird : add_expense float 0%float PrimFloat.leb 1 "2024-01-05" "Food"
                               0x1.3333333333333p-2%float "" tenths_db
                   = Ok 3 tenths_more_db) by reflexivity.
  destruct (month_total_after_add float 0%float PrimFloat.add PrimFloat.leb
              float_truthy lunch_db 1 "2024-01-20" "Food" 50%float "dinner" 2 _
              Hadd 1 "2024-01") as (_ & _ & Hin).
  destruct (Hin eq_refl) as [_ Hlast].
  destruct (month_total_after_add float 0%float PrimFloat.add PrimFloat.leb
              float_truthy lunch_db 1 "2024-01-20" "Food" 50%float "dinner" 2 _
              Hadd 1 "2024-02") as (_ & Hout & _).
  destruct (month_total_after_add float 0%float PrimFloat.add PrimFloat.leb
              float_truthy tenths_db 1 "2024-01-05" "Food"
              0x1.3333333333333p-2%float "" 3 _ Hthird 1 "2024-01")
    as (_ & _ & Hplace).
  split; [exact Hadd|]. split; [|split].
  - apply Hlast. intros e He.
    change (In e [mk_expense 1 1 "2024-01-05" "Food" 100%float "lunch"]) in He.
    destruct He as [<-|[]]. reflexivity.
  - exact (Hout eq_refl).
  - exact (proj1 (Hplace eq_refl)).
Defined.

Lemma budget_stays_witness :
  returned (get_budget float 1 "2024-01")
           (after_all float 0%float PrimFloat.leb
              (SetBudget 1 "2024-02" 900%float :: january 1) budget_db)
  = Some (Some 500%float).
Proof.
  exact (budget_stays float 0%float PrimFloat.add PrimFloat.leb float_truthy
           (SetBudget 1 "2024-02" 900%float :: january 1) budget_db 1 "2024-01"
           eq_refl).
Defined.

Lemma authenticate_user_sound_witness :
  authenticate_user float "bob" "s3cret" alice_db = Ok None alice_db.
Proof.
  apply (proj1 (authenticate_user_sound float alice_db "bob" "s3cret")).
  intros u Hu.
  change (In u [mk_user 1 "alice"
                        (_hash_password "s3cret" alice_salt) alice_salt
                        alice_created_at]) in Hu.
  destruct Hu as [<-|[]]. simpl. discriminate.
Defined.

Lemma added_expense_counts_in_its_month_witness :
  1 <= 5 <= 31
  /\ to_date_str true (Datetime.mk_date 2024 1 5) = "2024-01-05"
  /\ returned (get_month_total float 0%float PrimFloat.add float_truthy 1
                               (month_str true (Datetime.mk_date 2024 1 5)))
              tenths_more_db
     = Some 0x1.3333333333333p-1%float.
Proof.
  assert (Hd : 1 <= 5 <= 31) by lia.
  split; [exact Hd|]. split; [reflexivity|].
  exact (proj1 (proj2
           (added_expense_counts_in_its_month float 0%float PrimFloat.add
              PrimFloat.leb float_truthy tenths_db true (Datetime.mk_date 2024 1 5)
              1 "Food" 0x1.3333333333333p-2%float "" 3 tenths_more_db Hd eq_refl))).
Defined.

Lemma to_date_str_order_witness :
  String.compare (to_date_str false (Datetime.mk_date 2024 1 20))
                 (to_date_str false (Datetime.mk_date 2024 2 5))
  = Lt.
Proof.
  apply (proj1 (to_date_str_order false (Datetime.mk_date 2024 1 20)
                  (Datetime.mk_date 2024 2 5)
                  ltac:(simpl; lia) ltac:(simpl; lia) ltac:(simpl; lia)
                  ltac:(simpl; lia) ltac:(simpl; lia) ltac:(simpl; lia))).
Defined.

(** The account of the example, through the forms. *)
Example signup_alice :
  signup float "  alice " "s3cret" "s3cret" alice_salt alice_created_at empty_db
  = Ok AccountCreated alice_db
  /\ login float " alice" "s3cret" alice_db = Ok (Some (1, "alice")) alice_db
  /\ login float "alice" "S3cret" alice_db = Ok None alice_db
  /\ signup float "alice" "other" "other" alice_salt alice_created_at alice_db
     = Ok ExistsOrInvalid alice_db
  /\ signup float "   " "s3cret" "s3cret" alice_salt alice_created_at empty_db
     = Ok ExistsOrInvalid empty_db.
Proof. repeat split; vm_compute; reflexivity. Qed.

(** ** The category of the forms *)

Lemma custom_category_clean (text : string) :
  custom_category text <> ""
  /\ Py.strip (custom_category text) = custom_category text.
Proof.
  unfold custom_category. destruct (Py.truthy (Py.strip text)) eqn:E.
  - split; [|apply strip_idempotent].
    intros H. rewrite H in E. discriminate.
  - split; [discriminate|reflexivity].
Qed.

(** X19. The forms never hand on an empty category: for every option of
    the select box and every text typed in the custom field the category
    is not empty, and a custom one has no white space at either end. *)
Theorem form_category_not_empty (selected text : string) :
  In selected category_options ->
  form_category selected text <> ""
  /\ (selected = "Custom..." ->
      Py.strip (form_category selected text) = form_category selected text).
Proof.
  intros Hin. unfold form_category.
  destruct (String.eqb selected "Custom...") eqn:E.
  - destruct (custom_category_clean text) as [H1 H2]. auto.
  - split.
    + unfold category_options, DEFAULT_CATEGORIES in Hin. simpl in Hin.
      repeat (destruct Hin as [<-|Hin]; [discriminate|]). contradiction.
    + intros ->. discriminate.
Qed.

(** X20. The edit form keeps the category of a row: the option it
    preselects exists, is the category itself when that is one of the
    default categories and "Custom..." otherwise, the [ValueError] branch
    being dead; and saving with the preselected option and the custom
    field as prefilled hands the category on unchanged, provided it is a
    default category or is not empty and has no white space around. *)
Theorem edit_form_keeps_category (category : string) :
  let selected := nth (default_index category) category_options "" in
  (default_index category < List.length category_options)%nat
  /\ selected = (if existsb (String.eqb category) DEFAULT_CATEGORIES
                 then category else "Custom...")
  /\ (In category DEFAULT_CATEGORIES
      \/ (category <> "" /\ Py.strip category = category) ->
      form_category selected category = category).
Proof.
  intros selected.
  destruct (existsb (String.eqb category) DEFAULT_CATEGORIES) eqn:E.
  - apply existsb_exists in E. destruct E as (x & Hin & Hx).
    apply String.eqb_eq in Hx. subst x.
    unfold DEFAULT_CATEGORIES in Hin. simpl in Hin.
    repeat (destruct Hin as [<-|Hin];
            [split; [vm_compute; lia|]; split; [reflexivity|]; intros _; reflexivity|]).
    contradiction.
  - assert (Hsel : default_index category = 11%nat).
    { unfold default_index. rewrite E. reflexivity. }
    unfold selected. rewrite Hsel. split; [simpl; lia|]. split; [reflexivity|].
    intros [Hin|[Hne Hs]].
    + assert (existsb (String.eqb category) DEFAULT_CATEGORIES = true);
        [|congruence].
      apply existsb_exists. exists category. split; [assumption|].
      apply String.eqb_refl.
    + change (custom_category category = category). unfold custom_category.
      rewrite Hs. destruct category; [congruence|reflexivity].
Qed.

Lemma form_category_not_empty_witness :
  In "Custom..." category_options
  /\ form_category "Custom..." "   " = "Other"
  /\ form_category "Custom..." "   " <> "".
Proof.
  assert (H : In "Custom..." category_options) by (simpl; tauto).
  split; [exact H|]. split; [reflexivity|].
  exact (proj1 (form_category_not_empty "Custom..." "   " H)).
Defined.


(** ** Examples *)

Example sha256_abc :
  SHA256.hexdigest (Py.encode_utf8 "abc")
  = "ba7816bf8f01cfea414140de5dae2223b00361a396177a9cb410ff61f20015ad".
Proof. vm_compute. reflexivity. Qed.

Example sha256_empty :
  SHA256.hexdigest []
  = "e3b0c44298fc1c149afbf4c8996fb92427ae41e4649b934ca495991b7852b855".
Proof. vm_compute. reflexivity. Qed.

Example sha256_two_blocks :
  SHA256.hexdigest (Py.encode_utf8
    "aaaaaaaaaaaaaaaaaaaaaaaaaaaaaaaaaaaaaaaaaaaaaaaaaaaaaaaaaaaaaaaaaaaaaa")
  = "6bd5e5034855a11241f0dee8fc72850ffd9955b28347a86428b5fa19119f6ad0".
Proof. vm_compute. reflexivity. Qed.

(** A code point above 127 takes two bytes: [hashlib] on "caf" followed by
    U+00E9. *)
Example sha256_latin1 :
  SHA256.hexdigest
    (Py.encode_utf8 (String.append "caf" (String (ascii_of_N 233) EmptyString)))
  = "850f7dc43910ff890f8879c0ed26fe697c93a067ad93a7d50f466a7028a9bf4e".
Proof. vm_compute. reflexivity. Qed.

(** Row ids are not handed out twice: after the last expense is deleted
    the next one gets a new identifier. *)
Example rowid_not_reused :
  expenses
    (after_all float 0%float PrimFloat.leb
       [ AddExpense 1 "2024-01-05" "Food" 100%float "";
         DeleteExpense 1 1;
         AddExpense 2 "2024-01-06" "Rent" 900%float "" ]
       empty_db)
  = [ mk_expense 2 2 "2024-01-06" "Rent" 900%float "" ].
Proof. reflexivity. Qed.

Example strip_spaces : Py.strip "  alice	 " = "alice".
Proof. reflexivity. Qed.

(** The specification's example for the top category. *)
Example january_top_category :
  get_top_category float 0%float PrimFloat.add PrimFloat.leb 1
                   (Some "2024-01-01") (Some "2024-01-31") (january_db 1)
  = Ok (Some ("Food", 150%float)) (january_db 1).
Proof. vm_compute. reflexivity. Qed.

(** The amounts 0.1, 0.2 and 0.3 entered with the latest date first:
    without a date bound they are added in rowid order, which gives
    0.6000000000000001, and under one in the order of the dates, which
    gives 0.6. *)
Example top_category_adds_in_the_order_visited :
  get_top_category float 0%float PrimFloat.add PrimFloat.leb 1 None None
                   tenths_more_db
  = Ok (Some ("Food", 0x1.3333333333334p-1%float)) tenths_more_db
  /\ get_top_category float 0%float PrimFloat.add PrimFloat.leb 1
                      (Some "2024-01-01") None tenths_more_db
     = Ok (Some ("Food", 0x1.3333333333333p-1%float)) tenths_more_db
  /\ get_month_total float 0%float PrimFloat.add float_truthy 1 "2024-01"
                     tenths_more_db
     = Ok 0x1.3333333333333p-1%float tenths_more_db.
Proof. repeat split; vm_compute; reflexivity. Qed.

(** Three categories of one total: without a date bound the groups come
    in the order of the categories and the first is kept, under one they
    come in the reverse order. *)
Example top_category_of_equal_totals :
  let d := after_all float 0%float PrimFloat.leb
             [ AddExpense 1 "2024-01-05" "Food" 10%float "";
               AddExpense 1 "2024-01-06" "Bills" 10%float "";
               AddExpense 1 "2024-01-07" "Rent" 10%float "" ]
             empty_db in
  get_top_category float 0%float PrimFloat.add PrimFloat.leb 1 None None d
  = Ok (Some ("Bills", 10%float)) d
  /\ get_top_category float 0%float PrimFloat.add PrimFloat.leb 1
                      (Some "2024-01-01") None d
     = Ok (Some ("Rent", 10%float)) d.
Proof. split; vm_compute; reflexivity. Qed.

(** The largest and the smallest INTEGER are bound, the next [int] is
    not. *)
Example integer_range :
  execute [1; 2 ^ 63 - 1] (delete_expense float 1 (2 ^ 63 - 1)) lunch_db
  = Ok tt lunch_db
  /\ execute [1; - 2 ^ 63] (delete_expense float 1 (- 2 ^ 63)) lunch_db
     = Ok tt lunch_db
  /\ execute [1; 2 ^ 63] (delete_expense float 1 (2 ^ 63)) lunch_db
     = Raise OverflowError.
Proof. repeat split; vm_compute; reflexivity. Qed.

(** The query of the example, in date order. *)
Example january_query :
  get_expenses_df float 1 None None None (january_db 1)
  = Ok [ mk_df_row 1 "2024-01-05" "Food" 100%float "";
         mk_df_row 3 "2024-01-10" "Travel" 30%float "";
         mk_df_row 2 "2024-01-20" "Food" 50%float "" ]
       (january_db 1).
Proof. vm_compute. reflexivity. Qed.

(** The upper bound of a month is the string [month-31]: a date that no
    calendar has counts, and a thirty-first with a suffix does not. *)
Example month_bound_is_a_string :
  in_month 1 "2024-02" (mk_expense 7 1 "2024-02-31" "Food" 1%float "") = true
  /\ in_month 1 "2024-02" (mk_expense 7 1 "2024-02-31T10:00" "Food" 1%float "")
     = false.
Proof. split; reflexivity. Qed.

(** A negative amount is refused by the schema. *)
Example negative_amount_raises :
  add_expense float 0%float PrimFloat.leb 1 "2024-01-05" "Food" (-5)%float ""
              empty_db
  = Raise (IntegrityError "CHECK constraint failed: amount >= 0").
Proof. reflexivity. Qed.
